(** * PDF-Converter: the document synthesis routine [convertToPDF]

    A shallow embedding of [src/App.tsx].  The routine picks one of three
    strategies from the declared MIME type of the selected file, draws into a
    pdf-lib document, serializes it and writes it under the documents
    directory.  The React state ([selectedFile], [isConverting],
    [downloadUrl]), the alerts and the calls made to the platform
    collaborators are threaded through an explicit machine state; a thrown
    JavaScript exception is the left injection of a sum. *)

From Stdlib Require Import String Ascii List ZArith NArith QArith Lia Bool.
From Stdlib Require Import Qround DecimalString DecimalN.
Import ListNotations.

Close Scope Q_scope.
Open Scope string_scope.
Open Scope list_scope.

(** String concatenation of JavaScript ([+] and template literals). *)
Infix "+++" := String.append (right associativity, at level 60).

(* ------------------------------------------------------------------ *)
(** ** Strings *)

Module Str.

(** [s.startsWith(p)]. *)
Definition startsWith (s p : string) : bool := String.prefix p s.

(** [s.split(sep)] for a one-character separator: the pieces between the
    occurrences of [sep], empty pieces kept, so that the empty string
    splits into one empty piece. *)
Fixpoint split (sep : ascii) (s : string) : list string :=
  match s with
  | EmptyString => [EmptyString]
  | String c rest =>
      if Ascii.eqb c sep then EmptyString :: split sep rest
      else match split sep rest with
           | piece :: pieces => String c piece :: pieces
           | [] => [String c EmptyString]
           end
  end.

(** [s.includes(t)]: [t] occurs in [s] as a contiguous substring. *)
Definition includes (s t : string) : Prop :=
  exists before after, s = before +++ t +++ after.

(** The line feed, ["\n"]. *)
Definition LF : ascii := "010"%char.

(** [ls.join("\n")]: the pieces with a line feed between neighbours. *)
Fixpoint joinLines (ls : list string) : string :=
  match ls with
  | [] => EmptyString
  | [l] => l
  | l :: rest => l +++ String LF (joinLines rest)
  end.

End Str.

(* ------------------------------------------------------------------ *)
(** ** Errors

    The source throws and catches untyped JavaScript exceptions.  An
    exception carries the name the specification gives to the failure of the
    call site that raised it, and the message the [catch] block shows
    ([None] for a thrown value that is not an [Error]). *)

Inductive ErrorKind : Type :=
| NoFileSelected
| SourceUnreadable
| UnsupportedImageFormat
| CorruptImageData
| InvalidGeometry
| SerializationError
| PersistenceFailure
| ViewerUnavailable.

Record Exn : Type := mkExn { kind : ErrorKind; message : option string }.

Definition Result (A : Type) : Type := (Exn + A)%type.

Definition ok {A} (a : A) : Result A := inr a.
Definition throw {A} (k : ErrorKind) (msg : option string) : Result A :=
  inl (mkExn k msg).

Definition bindR {A B} (r : Result A) (f : A -> Result B) : Result B :=
  match r with
  | inl e => inl e
  | inr a => f a
  end.

(* ------------------------------------------------------------------ *)
(** ** Document Builder (pdf-lib's [PDFDocument] and [PDFPage]) *)

Module Builder.

Record Color : Type := rgb { red : Q; green : Q; blue : Q }.

Definition black : Color := rgb 0 0 0.

Inductive RasterFormat : Type := PNG | JPEG.

(** A decoded raster resource with its intrinsic dimensions in pixels. *)
Record EmbeddedImage : Type := mkImage {
  format : RasterFormat;
  intrinsicWidth : Z;
  intrinsicHeight : Z
}.

Inductive DrawOperation : Type :=
| Text (content : string) (x y : Z) (fontSize : Z) (maxWidth : option Z)
       (color : Color)
| Image (embeddedRef : EmbeddedImage) (x y : Z) (width height : Q).

Record PageCanvas : Type := mkPage {
  pageWidth : Z;
  pageHeight : Z;
  ops : list DrawOperation
}.

Record Document : Type := mkDoc {
  pages : list PageCanvas;
  images : list EmbeddedImage
}.

(** A page handle: the position of the page in its document. *)
Definition PageRef : Type := nat.

(** Modelled from the spec: [createDocument] of the Document Builder
    (pdf-lib's [PDFDocument.create], not in src/): a document with zero
    pages. *)
Definition createDocument : Document := mkDoc [] [].

(** Modelled from the spec: [addPage] of the Document Builder (pdf-lib's
    [PDFDocument.addPage], not in src/): appends a new page and returns
    its handle; always succeeds. *)
Definition addPage (doc : Document) (w h : Z) : Document * PageRef :=
  (mkDoc (pages doc ++ [mkPage w h []]) (images doc), length (pages doc)).

(** Appending one operation to the page a handle designates. *)
Fixpoint appendOp (ps : list PageCanvas) (page : PageRef)
         (op : DrawOperation) : list PageCanvas :=
  match ps, page with
  | [], _ => []
  | p :: rest, O => mkPage (pageWidth p) (pageHeight p) (ops p ++ [op]) :: rest
  | p :: rest, S i => p :: appendOp rest i op
  end.

Record TextOptions : Type := mkTextOptions {
  optX : Z;
  optY : Z;
  optSize : Z;
  optMaxWidth : option Z;
  optColor : Color
}.

(** Modelled from the spec: [drawText] of the Document Builder (pdf-lib's
    [PDFPage.drawText], not in src/): appends a Text operation, does not
    wrap, and fails with [InvalidGeometry] when the size is not positive
    (coordinates are integers here, hence finite). *)
Definition drawText (doc : Document) (page : PageRef) (content : string)
           (o : TextOptions) : Result Document :=
  if (optSize o <=? 0)%Z then throw InvalidGeometry (Some "invalid geometry")
  else ok (mkDoc (appendOp (pages doc) page
                    (Text content (optX o) (optY o) (optSize o)
                          (optMaxWidth o) (optColor o)))
                 (images doc)).

(** pdf-lib's [PDFImage.scale(factor)]: both intrinsic dimensions
    multiplied by the factor.  The intrinsic dimensions are integers, so
    the product with 0.5 is exact in binary floating point and a rational
    represents it. *)
Definition scale (img : EmbeddedImage) (factor : Q) : Q * Q :=
  ((inject_Z (intrinsicWidth img) * factor)%Q,
   (inject_Z (intrinsicHeight img) * factor)%Q).

(** Modelled from the spec: [drawImage] of the Document Builder (pdf-lib's
    [PDFPage.drawImage], not in src/): appends an Image operation. *)
Definition drawImage (doc : Document) (page : PageRef)
           (img : EmbeddedImage) (x y : Z) (w h : Q) : Document :=
  mkDoc (appendOp (pages doc) page (Image img x y w h)) (images doc).

(** Registering a decoded image with the document that embeds it. *)
Definition embed (doc : Document) (img : EmbeddedImage) : Document :=
  mkDoc (pages doc) (images doc ++ [img]).

End Builder.
Import Builder.

(* ------------------------------------------------------------------ *)
(** ** Numbers *)

Module Num.

(** The decimal digits of a natural number, ["0"] for zero. *)
Definition digits (n : N) : string := NilEmpty.string_of_uint (N.to_uint n).

Fixpoint zeros (k : nat) : string :=
  match k with
  | O => EmptyString
  | S k' => String "0" (zeros k')
  end.

(** The integer [n] for which [n / 10^f - x] is as close to zero as
    possible, the larger one when there are two ([x] not negative). *)
Definition nearest (x : Q) (f : nat) : N :=
  Z.to_N (Qfloor (x * inject_Z (10 ^ Z.of_nat f) + (1 # 2))%Q).

(** [Number.prototype.toFixed(f)] (ECMAScript 21.1.3.3) on a number whose
    magnitude is below 10^21: the sign, the digits of the nearest
    multiple of [10^-f] padded on the left with zeros to [f + 1] digits,
    and a point before the last [f] digits. *)
Definition toFixed (x : Q) (f : nat) : string :=
  let neg := negb (Qle_bool 0 x) in
  let ax := if neg then (- x)%Q else x in
  let m := digits (nearest ax f) in
  let m :=
    match f with
    | O => m
    | _ =>
        let k := String.length m in
        let m := if (k <=? f)%nat then zeros (f + 1 - k) +++ m else m in
        let k := String.length m in
        substring 0 (k - f) m +++ "." +++ substring (k - f) f m
    end in
  (if neg then "-" else "") +++ m.

End Num.

(* ------------------------------------------------------------------ *)
(** ** The platform collaborators *)

(** What a call into a library returns: a value, or a thrown exception with
    its message. *)
Inductive Reply (A : Type) : Type :=
| Throws (msg : option string)
| Returns (a : A).
Arguments Throws {A} msg.
Arguments Returns {A} a.

(** [FileSystem.getInfoAsync]'s answer; [size] is read only when [exists]. *)
Record FileInfo : Type := mkFileInfo { fileExists : bool; size : N }.

Record World : Type := mkWorld {
  (** [FileSystem.readAsStringAsync(uri)] *)
  readAsStringAsync : string -> Reply string;
  (** [FileSystem.readAsStringAsync(uri, {encoding: Base64})] *)
  readAsBase64Async : string -> Reply string;
  (** [decode] of the base-64 package, imported as [atob] *)
  atob : string -> Reply string;
  (** the decoders behind [pdfDoc.embedPng] and [pdfDoc.embedJpg]: the
      intrinsic width and height of the raster *)
  decodePng : list Byte.byte -> Reply (Z * Z);
  decodeJpg : list Byte.byte -> Reply (Z * Z);
  (** [FileSystem.getInfoAsync(uri)] *)
  getInfoAsync : string -> Reply FileInfo;
  (** the encoder behind [pdfDoc.save()] *)
  encodePdf : Document -> Reply (list Byte.byte);
  (** [globalThis.btoa] and [Buffer.from(str).toString('base64')] *)
  globalBtoa : string -> Reply string;
  bufferBase64 : string -> Reply string;
  (** [FileSystem.writeAsStringAsync(path, data, {encoding: Base64})] *)
  writeAsStringAsync : string -> string -> Reply unit;
  (** [FileSystem.documentDirectory], of type [string | null] *)
  documentDirectory : option string;
  (** [new Date().toLocaleString()] at the time of the conversion *)
  toLocaleString : string
}.

(* ------------------------------------------------------------------ *)
(** ** Application state and the conversion monad *)

Record SelectedFile : Type := mkFile {
  uri : string;
  name : string;
  mimeType : option string
}.

Record AppState : Type := mkApp {
  selectedFile : option SelectedFile;
  isConverting : bool;
  downloadUrl : option string
}.

(** What an invocation does that the outside can see, in order: its calls
    into the collaborators, its updates of the React state, its alerts and
    its log lines. *)
Inductive Event : Type :=
| ReadText (u : string)
| ReadBase64 (u : string)
| DecodeBase64 (data : string)
| EmbedPng (bytes : list Byte.byte)
| EmbedJpg (bytes : list Byte.byte)
| GetInfo (u : string)
| Save (doc : Document)
| EncodeBase64 (binary : string)
| WriteFile (path data : string)
| SetIsConverting (b : bool)
| SetDownloadUrl (u : string)
| Alert (title msg : string)
| ConsoleLog (e : Exn).

(** The React state, the files written under the documents directory (the
    latest first), and the events so far. *)
Record Machine : Type := mkMachine {
  react : AppState;
  disk : list (string * string);
  trace : list Event
}.

(** An asynchronous step: it runs on the machine and returns a value or
    throws. *)
Definition M (A : Type) : Type := Machine -> Result A * Machine.

Definition ret {A} (a : A) : M A := fun m => (inr a, m).

Definition bind {A B} (c : M A) (f : A -> M B) : M B :=
  fun m => match c m with
           | (inl e, m') => (inl e, m')
           | (inr a, m') => f a m'
           end.

Notation "x <- c ;; k" := (bind c (fun x => k))
  (at level 61, c at next level, right associativity).
Notation "c ;;; k" := (bind c (fun _ => k))
  (at level 61, right associativity).

Definition lift {A} (r : Result A) : M A := fun m => (r, m).

Definition emit (e : Event) : M unit :=
  fun m => (inr tt, mkMachine (react m) (disk m) (trace m ++ [e])).

(** A call into a collaborator: the call is recorded, and a thrown
    exception gets the error kind of the call site. *)
Definition call {A} (e : Event) (k : ErrorKind) (r : Reply A) : M A :=
  emit e ;;;
  lift (match r with
        | Throws msg => throw k msg
        | Returns a => ok a
        end).

(** [try { body } catch (error) { handler } finally { final }]. *)
Definition tryCatchFinally {A} (body : M A) (handler : Exn -> M A)
           (final : M unit) : M A :=
  fun m =>
    let (r1, m1) := body m in
    let (r2, m2) := match r1 with
                    | inl e => handler e m1
                    | inr a => (inr a, m1)
                    end in
    let (r3, m3) := final m2 in
    (match r3 with
     | inl e => inl e
     | inr _ => r2
     end, m3).

Definition setIsConverting (b : bool) : M unit :=
  fun m => (inr tt,
            mkMachine (mkApp (selectedFile (react m)) b (downloadUrl (react m)))
                      (disk m) (trace m ++ [SetIsConverting b])).

Definition setDownloadUrl (u : string) : M unit :=
  fun m => (inr tt,
            mkMachine (mkApp (selectedFile (react m)) (isConverting (react m))
                             (Some u))
                      (disk m) (trace m ++ [SetDownloadUrl u])).

Definition alert (title msg : string) : M unit := emit (Alert title msg).

(** A successful [writeAsStringAsync] leaves the data at the path. *)
Definition writeFile (w : World) (path data : string) : M unit :=
  call (WriteFile path data) PersistenceFailure (writeAsStringAsync w path data) ;;;
  fun m => (inr tt, mkMachine (react m) ((path, data) :: disk m) (trace m)).

(* ------------------------------------------------------------------ *)
(** ** [convertToPDF] (src/App.tsx, lines 52-169) *)

(** [btoa] (lines 11-17): the global encoder, and the buffer encoder when
    the global one throws. *)
Definition btoa (w : World) (str : string) : Reply string :=
  match globalBtoa w str with
  | Returns s => Returns s
  | Throws _ => bufferBase64 w str
  end.

(** [mimeType?.startsWith(p)] as a condition: false on [null]. *)
Definition mimeStartsWith (mime : option string) (p : string) : bool :=
  match mime with
  | Some s => Str.startsWith s p
  | None => false
  end.

(** [mimeType === s]. *)
Definition mimeIs (mime : option string) (s : string) : bool :=
  match mime with
  | Some t => String.eqb t s
  | None => false
  end.

(** [mimeType || 'unknown']: the empty string is falsy as [null] is. *)
Definition mimeOrUnknown (mime : option string) : string :=
  match mime with
  | Some EmptyString => "unknown"
  | Some s => s
  | None => "unknown"
  end.

(** The title (lines 65-70). *)
Definition titleText (f : SelectedFile) : string := "Converted from: " +++ name f.
Definition titleOptions : TextOptions := mkTextOptions 50 800 18 None black.

(** *** Text files (lines 74-93) *)

Record Cursor : Type := mkCursor {
  curDoc : Document;
  curPage : PageRef;
  yPosition : Z
}.

Definition fontSize : Z := 12.
Definition lineHeight : Z := 14.

(** One turn of the [for (const line of lines)] loop. *)
Definition layoutLine (c : Cursor) (line : string) : Result Cursor :=
  let c1 :=
    if (yPosition c <? 50)%Z then
      let (d, p) := addPage (curDoc c) 595 842 in mkCursor d p 750
    else c in
  bindR (drawText (curDoc c1) (curPage c1) line
                  (mkTextOptions 50 (yPosition c1) fontSize (Some 500%Z) black))
        (fun d => ok (mkCursor d (curPage c1) (yPosition c1 - lineHeight))).

(** The whole loop. *)
Fixpoint layoutLines (lines : list string) (c : Cursor) : Result Cursor :=
  match lines with
  | [] => ok c
  | line :: rest => bindR (layoutLine c line) (layoutLines rest)
  end.

Definition textStrategy (w : World) (f : SelectedFile) (pdfDoc : Document)
           (page : PageRef) : M Document :=
  textContent <- call (ReadText (uri f)) SourceUnreadable
                      (readAsStringAsync w (uri f)) ;;
  let lines := Str.split Str.LF textContent in
  c <- lift (layoutLines lines (mkCursor pdfDoc page 750)) ;;
  ret (curDoc c).

(** *** Image files (lines 96-120) *)

Definition embedPng (w : World) (doc : Document) (bytes : list Byte.byte)
  : M (Document * EmbeddedImage) :=
  dims <- call (EmbedPng bytes) CorruptImageData (decodePng w bytes) ;;
  let img := mkImage PNG (fst dims) (snd dims) in
  ret (embed doc img, img).

Definition embedJpg (w : World) (doc : Document) (bytes : list Byte.byte)
  : M (Document * EmbeddedImage) :=
  dims <- call (EmbedJpg bytes) CorruptImageData (decodeJpg w bytes) ;;
  let img := mkImage JPEG (fst dims) (snd dims) in
  ret (embed doc img, img).

Definition imageStrategy (w : World) (f : SelectedFile) (pdfDoc : Document)
           (page : PageRef) : M Document :=
  imageData <- call (ReadBase64 (uri f)) SourceUnreadable
                    (readAsBase64Async w (uri f)) ;;
  binary <- call (DecodeBase64 imageData) SourceUnreadable (atob w imageData) ;;
  let imageBytes := list_byte_of_string binary in
  e <- (if mimeIs (mimeType f) "image/png"
        then embedPng w pdfDoc imageBytes
        else embedJpg w pdfDoc imageBytes) ;;
  let (pdfDoc, embeddedImage) := e in
  let (width, height) := scale embeddedImage (1 # 2) in
  ret (drawImage pdfDoc page embeddedImage 50 400 width height).

(** *** Any other file (lines 123-144) *)

(** The size line (lines 134-136).  The size is a whole number of bytes, so
    its quotient by 1024 is exact in binary floating point and a rational
    represents it. *)
Definition sizeText (fileInfo : FileInfo) : string :=
  if fileExists fileInfo
  then Num.toFixed (inject_Z (Z.of_N (size fileInfo)) / 1024)%Q 2 +++ " KB"
  else "unknown".

Definition detailsText (w : World) (f : SelectedFile) (fileInfo : FileInfo)
  : string :=
  ("Original File: " +++ name f +++ String Str.LF "") +++
  ("Type: " +++ mimeOrUnknown (mimeType f) +++ String Str.LF "") +++
  ("Size: " +++ sizeText fileInfo +++ String Str.LF "") +++
  ("Converted on: " +++ toLocaleString w).

Definition fallbackStrategy (w : World) (f : SelectedFile) (pdfDoc : Document)
           (page : PageRef) : M Document :=
  fileInfo <- call (GetInfo (uri f)) SourceUnreadable (getInfoAsync w (uri f)) ;;
  pdfDoc <- lift (drawText pdfDoc page "File Conversion Details"
                           (mkTextOptions 50 700 16 None black)) ;;
  lift (drawText pdfDoc page (detailsText w f fileInfo)
                 (mkTextOptions 50 650 12 None black)).

(** *** The document (lines 61-145) *)

Definition buildDocument (w : World) (f : SelectedFile) : M Document :=
  let pdfDoc := createDocument in
  let (pdfDoc, page) := addPage pdfDoc 595 842 in
  pdfDoc <- lift (drawText pdfDoc page (titleText f) titleOptions) ;;
  if mimeStartsWith (mimeType f) "text/" then textStrategy w f pdfDoc page
  else if mimeStartsWith (mimeType f) "image/" then imageStrategy w f pdfDoc page
  else fallbackStrategy w f pdfDoc page.

(** *** Saving (lines 147-162) *)

(** Modelled from the spec: [serialize] of the Document Builder (pdf-lib's
    [PDFDocument.save], not in src/): fails with [SerializationError] on a
    document with zero pages, and otherwise hands the document to the
    encoder. *)
Definition serialize (w : World) (doc : Document) : Reply (list Byte.byte) :=
  match pages doc with
  | [] => Throws (Some "no pages")
  | _ :: _ => encodePdf w doc
  end.

(** Does the whole of [s] match [[^/.]*]? *)
Fixpoint extensionChars (s : string) : bool :=
  match s with
  | EmptyString => true
  | String c rest =>
      negb (Ascii.eqb c "/") && negb (Ascii.eqb c ".") && extensionChars rest
  end.

(** Does the whole of [s] match [\.[^/.]+]? *)
Definition isExtension (s : string) : bool :=
  match s with
  | String c (String d rest) => Ascii.eqb c "." && extensionChars (String d rest)
  | _ => false
  end.

(** [s.replace(/\.[^/.]+$/, '')]: the leftmost position from which the rest
    of [s] matches is where the match starts, and the match (which the [$]
    makes run to the end) is removed. *)
Fixpoint removeExtension (s : string) : string :=
  if isExtension s then EmptyString
  else match s with
       | EmptyString => EmptyString
       | String c rest => String c (removeExtension rest)
       end.

(** A template literal prints [null] as the word. *)
Definition templateOfNullable (s : option string) : string :=
  match s with
  | Some t => t
  | None => "null"
  end.

(** [pdfUri] (line 149). *)
Definition pdfUriOf (w : World) (f : SelectedFile) : string :=
  templateOfNullable (documentDirectory w) +++ removeExtension (name f) +++ ".pdf".

(** The [try] block (lines 61-162). *)
Definition conversionAttempt (w : World) (f : SelectedFile) : M unit :=
  pdfDoc <- buildDocument w f ;;
  pdfBytes <- call (Save pdfDoc) SerializationError (serialize w pdfDoc) ;;
  let pdfUri := pdfUriOf w f in
  let base64String := string_of_list_byte pdfBytes in
  base64 <- call (EncodeBase64 base64String) PersistenceFailure
                 (btoa w base64String) ;;
  writeFile w pdfUri base64 ;;;
  setDownloadUrl pdfUri ;;;
  alert "Success" "File converted to PDF successfully!".

(** The [catch] block (lines 163-165). *)
Definition conversionFailed (error : Exn) : M unit :=
  emit (ConsoleLog error) ;;;
  alert "Error"
        ("Failed to convert file: " +++
         match message error with
         | Some msg => msg
         | None => "Unknown error"
         end).

Definition convertToPDF (w : World) : M unit :=
  fun m =>
    match selectedFile (react m) with
    | None => alert "Error" "Please select a file first" m
    | Some f =>
        (setIsConverting true ;;;
         tryCatchFinally (conversionAttempt w f) conversionFailed
                         (setIsConverting false)) m
    end.

(* ------------------------------------------------------------------ *)
(** ** Observations on documents and runs *)

(** The operation the loop draws for one line at height [y]. *)
Definition lineOp (line : string) (y : Z) : DrawOperation :=
  Text line 50 y fontSize (Some 500%Z) black.

(** The title operation of a file. *)
Definition titleOp (f : SelectedFile) : DrawOperation :=
  Text (titleText f) 50 800 18 None black.

(** An operation drawn by the text loop: size 12 within a width of 500. *)
Definition isLine (op : DrawOperation) : bool :=
  match op with
  | Text _ _ _ size (Some mw) _ => (size =? fontSize)%Z && (mw =? 500)%Z
  | _ => false
  end.

(** A line of the flow on its grid: drawn 14 points below the one before,
    from 750 down to 50, the 51st place of a page. *)
Definition onGrid (op : DrawOperation) : Prop :=
  exists line k, (k <= 50)%nat /\ op = lineOp line (750 - 14 * Z.of_nat k).

Definition linesOnPage (p : PageCanvas) : nat :=
  length (filter isLine (ops p)).

(** The lines per page of a flow that has [k] lines on its current page and
    [n] lines still to place, a page taking 51 lines. *)
Fixpoint pageFill (k n : nat) : list nat :=
  match n with
  | O => [k]
  | S n' => if (51 <=? k)%nat then k :: pageFill 1 n' else pageFill (S k) n'
  end.

(** The lines per page of the document built for a file, when it is built. *)
Definition builtPageLines (w : World) (f : SelectedFile) (m : Machine)
  : option (list nat) :=
  match buildDocument w f m with
  | (inr doc, _) => Some (map linesOnPage (pages doc))
  | (inl _, _) => None
  end.

(** A machine at rest with a file selected. *)
Definition idle (f : SelectedFile) : Machine :=
  mkMachine (mkApp (Some f) false None) [] [].

(** A text of [n] lines, each one the letter x. *)
Definition shortLines (n : nat) : string := Str.joinLines (repeat "x" n).

(** A world whose file source holds one text, with a raster decoder that
    accepts nothing. *)
Definition textWorld (txt : string) : World :=
  mkWorld (fun _ => Returns txt) (fun _ => Returns txt) (fun s => Returns s)
          (fun _ => Throws (Some "not a PNG file"))
          (fun _ => Throws (Some "SOI not found in JPEG"))
          (fun _ => Returns (mkFileInfo true 2048)) (fun _ => Returns [])
          (fun s => Returns s) (fun s => Returns s) (fun _ _ => Returns tt)
          (Some "file:///documents/") "11/2/2026, 10:00:00 AM".


(** The document every strategy starts from: one A4 page with the title. *)
Definition titledDoc (f : SelectedFile) : Document :=
  mkDoc [mkPage 595 842 [titleOp f]] [].

(** The three strategies, and the specification's selection rule: the first
    matching prefix of the declared type wins. *)
Inductive Strategy : Type := TextLayout | ImageEmbedding | MetadataFallback.

Definition selectionRule (declared : option string) : Strategy :=
  match declared with
  | None => MetadataFallback
  | Some s =>
      if String.prefix "text/" s then TextLayout
      else if String.prefix "image/" s then ImageEmbedding
      else MetadataFallback
  end.

Definition runStrategy (s : Strategy)
  : World -> SelectedFile -> Document -> PageRef -> M Document :=
  match s with
  | TextLayout => textStrategy
  | ImageEmbedding => imageStrategy
  | MetadataFallback => fallbackStrategy
  end.

(** A selected text file. *)
Definition notesFile : SelectedFile :=
  mkFile "file:///cache/notes.txt" "notes.txt" (Some "text/plain").

(** The machine after further events, with its React state and disk as
    they were. *)
Definition record (m : Machine) (evs : list Event) : Machine :=
  mkMachine (react m) (disk m) (trace m ++ evs).

Definition isThrows {A} (r : Reply A) : bool :=
  match r with
  | Throws _ => true
  | Returns _ => false
  end.

(** The events that are calls into a collaborator, a step of the pipeline. *)
Definition isCall (e : Event) : bool :=
  match e with
  | ReadText _ | ReadBase64 _ | DecodeBase64 _ | EmbedPng _ | EmbedJpg _
  | GetInfo _ | Save _ | EncodeBase64 _ | WriteFile _ _ => true
  | SetIsConverting _ | SetDownloadUrl _ | Alert _ _ | ConsoleLog _ => false
  end.

(** The calls made while the document is built. *)
Definition isBuildCall (e : Event) : bool :=
  match e with
  | ReadText _ | ReadBase64 _ | DecodeBase64 _ | EmbedPng _ | EmbedJpg _
  | GetInfo _ => true
  | _ => false
  end.

(** Does the world answer the call of an event by throwing? *)
Definition replyFailed (w : World) (e : Event) : bool :=
  match e with
  | ReadText u => isThrows (readAsStringAsync w u)
  | ReadBase64 u => isThrows (readAsBase64Async w u)
  | DecodeBase64 d => isThrows (atob w d)
  | EmbedPng b => isThrows (decodePng w b)
  | EmbedJpg b => isThrows (decodeJpg w b)
  | GetInfo u => isThrows (getInfoAsync w u)
  | Save doc => isThrows (serialize w doc)
  | EncodeBase64 s => isThrows (btoa w s)
  | WriteFile p d => isThrows (writeAsStringAsync w p d)
  | SetIsConverting _ | SetDownloadUrl _ | Alert _ _ | ConsoleLog _ => false
  end.

(** A sequence of calls that ends with its result: no call is made twice,
    every call before the last succeeded, and the result is a failure
    exactly when the last call failed. *)
Definition stopsAtFirstFailure {A} (w : World) (calls : list Event)
           (r : Result A) : Prop :=
  Forall (fun e => isCall e = true) calls /\
  NoDup calls /\
  match r with
  | inr _ => Forall (fun e => replyFailed w e = false) calls
  | inl _ =>
      exists before failing,
        calls = before ++ [failing] /\
        Forall (fun e => replyFailed w e = false) before /\
        replyFailed w failing = true
  end.

(** The error kinds the platform calls of the pipeline raise. *)
Definition isPipelineError (k : ErrorKind) : bool :=
  match k with
  | SourceUnreadable | CorruptImageData | SerializationError
  | PersistenceFailure => true
  | _ => false
  end.

(** A built document: a first A4 page that starts with the title, and after
    the title and on later pages no text other than lines of the flow. *)
Definition titledPages (f : SelectedFile) (doc : Document) : Prop :=
  exists rest more,
    pages doc = mkPage 595 842 (titleOp f :: rest) :: more /\
    Forall (fun op => op <> titleOp f) rest /\
    Forall (fun p => Forall (fun op => isLine op = true) (ops p)) more.

(** The machine a successful attempt leaves: the PDF on disk under its
    path, and the path in [downloadUrl]. *)
Definition persisted (w : World) (f : SelectedFile) (m : Machine)
           (data : string) (evs : list Event) : Machine :=
  mkMachine (mkApp (selectedFile (react m)) (isConverting (react m))
                   (Some (pdfUriOf w f)))
            ((pdfUriOf w f, data) :: disk m)
            (trace m ++ evs).

(** The calls a successful attempt makes once the document is built. *)
Definition persistCalls (w : World) (f : SelectedFile) (doc : Document)
           (pdfBytes : list Byte.byte) (data : string) : list Event :=
  [Save doc; EncodeBase64 (string_of_list_byte pdfBytes);
   WriteFile (pdfUriOf w f) data].

(** What the [catch] block shows for an exception. *)
Definition failureAlert (e : Exn) : Event :=
  Alert "Error"
        ("Failed to convert file: " +++
         match message e with
         | Some msg => msg
         | None => "Unknown error"
         end).

Definition successAlert : Event :=
  Alert "Success" "File converted to PDF successfully!".

(** A selected image whose declared type is image/gif. *)
Definition gifFile : SelectedFile :=
  mkFile "file:///cache/pic.gif" "pic.gif" (Some "image/gif").

(** The machine [convertToPDF] leaves when a file was selected: the busy
    flag down, and the trace grown by the events of the invocation. *)
Definition settled (f : SelectedFile) (url : option string)
           (files : list (string * string)) (m : Machine) (evs : list Event)
  : Machine :=
  mkMachine (mkApp (Some f) false url) files (trace m ++ evs).

(** A world whose raster decoders accept what they are given: a PNG of
    640 by 480 pixels, a JPEG of 801 by 600. *)
Definition rasterWorld : World :=
  mkWorld (fun _ => Returns "") (fun _ => Returns "iVBORw0KGgo=")
          (fun s => Returns s)
          (fun _ => Returns (640, 480)%Z) (fun _ => Returns (801, 600)%Z)
          (fun _ => Returns (mkFileInfo true 2048)) (fun _ => Returns [])
          (fun s => Returns s) (fun s => Returns s) (fun _ _ => Returns tt)
          (Some "file:///documents/") "11/2/2026, 10:00:00 AM".

Definition pngFile : SelectedFile :=
  mkFile "file:///cache/photo.png" "photo.png" (Some "image/png").

Definition jpegFile : SelectedFile :=
  mkFile "file:///cache/photo.jpg" "photo.jpg" (Some "image/jpeg").

(** The decoder the declared type selects (lines 107-111). *)
Definition decoderFor (w : World) (f : SelectedFile)
  : list Byte.byte -> Reply (Z * Z) :=
  if mimeIs (mimeType f) "image/png" then decodePng w else decodeJpg w.

Definition formatFor (f : SelectedFile) : RasterFormat :=
  if mimeIs (mimeType f) "image/png" then PNG else JPEG.

(** The Image operations of a document, page after page. *)
Definition isImage (op : DrawOperation) : bool :=
  match op with
  | Image _ _ _ _ _ => true
  | Text _ _ _ _ _ _ => false
  end.

Definition imageOps (doc : Document) : list DrawOperation :=
  flat_map (fun p => filter isImage (ops p)) (pages doc).

(** [ext] is the extension of [name] after [stem]: what follows the last
    dot, when it is not empty and has no slash in it. *)
Definition extensionOf (name stem ext : string) : Prop :=
  name = stem +++ "." +++ ext /\
  ext <> "" /\
  forall c, In c (list_ascii_of_string ext) -> c <> "."%char /\ c <> "/"%char.

(** The number a string of decimal digits denotes, leading zeros allowed. *)
Definition readDigits (s : string) : option N :=
  option_map N.of_uint (NilEmpty.uint_of_string s).

(** The digits of [toFixed(2)] before the point is placed: padded on the
    left with zeros to three digits. *)
Definition padTo3 (m : string) : string :=
  if (String.length m <=? 2)%nat
  then Num.zeros (2 + 1 - String.length m) +++ m
  else m.

(** A selected archive, neither text nor image. *)
Definition zipFile : SelectedFile :=
  mkFile "file:///cache/archive.zip" "archive.zip" (Some "application/zip").

(* ------------------------------------------------------------------ *)
(** ** Observations on the text of a document *)

(** The text and the height of an operation. *)
Definition contentOf (op : DrawOperation) : string :=
  match op with
  | Text content _ _ _ _ _ => content
  | Image _ _ _ _ _ => EmptyString
  end.

Definition heightOf (op : DrawOperation) : Z :=
  match op with
  | Text _ _ y _ _ _ => y
  | Image _ _ y _ _ => y
  end.

(** The lines of a page, and of a document, in drawing order. *)
Definition pageLines (p : PageCanvas) : list string :=
  map contentOf (filter isLine (ops p)).

Definition documentLines (doc : Document) : list string :=
  flat_map pageLines (pages doc).

Definition lineHeights (p : PageCanvas) : list Z :=
  map heightOf (filter isLine (ops p)).

(** The first [n] heights of the grid: 750, 736, ... *)
Definition gridHeights (n : nat) : list Z :=
  map (fun j => (750 - 14 * Z.of_nat j)%Z) (seq 0 n).

Definition isA4 (p : PageCanvas) : Prop :=
  pageWidth p = 595%Z /\ pageHeight p = 842%Z.

(** The line feeds of a text. *)
Fixpoint countLF (s : string) : nat :=
  match s with
  | EmptyString => O
  | String c rest =>
      if Ascii.eqb c Str.LF then S (countLF rest) else countLF rest
  end.

Definition hasNoLF (s : string) : Prop := countLF s = O.

(** The events a run added to the trace of a machine. *)
Definition isEmbed (e : Event) : bool :=
  match e with
  | EmbedPng _ | EmbedJpg _ => true
  | _ => false
  end.

(* ------------------------------------------------------------------ *)
(** ** The other handlers of [App] (src/App.tsx)

    [pickDocument] (lines 31-49), [openPDF] (lines 172-192) and the view
    (lines 194-226).  They share the React state with [convertToPDF]; what
    they do besides is returned as a list of their own events. *)

(** One entry of [result.assets]. *)
Record Asset : Type := mkAsset {
  assetUri : string;
  assetName : string;
  assetMimeType : option string
}.

(** [DocumentPicker.getDocumentAsync]'s answer; [assets] may be [null]. *)
Record PickerResult : Type := mkPickerResult {
  canceled : bool;
  assets : option (list Asset)
}.

Record Shell : Type := mkShell {
  (** [DocumentPicker.getDocumentAsync({type})] *)
  getDocumentAsync : list string -> Reply PickerResult;
  (** [FileSystem.getContentUriAsync(uri)] *)
  getContentUriAsync : string -> Reply string;
  (** [Linking.openURL(url)] *)
  openURL : string -> Reply unit
}.

Inductive ShellEvent : Type :=
| PickerAsked (types : list string)
| SelectedFileSet (f : SelectedFile)
| DownloadUrlCleared
| InfoAsked (u : string)
| ContentUriAsked (u : string)
| UrlOpened (u : string)
| ShellAlert (title msg : string).

(** [s || d] on strings: the empty string is falsy. *)
Definition orElse (s d : string) : string :=
  match s with
  | EmptyString => d
  | String _ _ => s
  end.

(** [s || null] on a string that may be absent. *)
Definition orNull (s : option string) : option string :=
  match s with
  | Some EmptyString => None
  | Some t => Some t
  | None => None
  end.

(** The types the picker is asked for (line 34). *)
Definition pickerTypes : list string := ["image/*"; "text/plain"].

(** The file of an answer that is taken (line 37): the first asset of an
    answer that is not canceled. *)
Definition pickedAsset (result : PickerResult) : option Asset :=
  if canceled result then None
  else match assets result with
       | Some (file :: _) => Some file
       | Some [] => None
       | None => None
       end.

(** [setSelectedFile]'s argument (lines 39-43). *)
Definition selectionOf (file : Asset) : SelectedFile :=
  mkFile (assetUri file) (orElse (assetName file) "file")
         (orNull (assetMimeType file)).

(** [pickDocument] (lines 31-49). *)
Definition pickDocument (sh : Shell) (m : Machine) : Machine * list ShellEvent :=
  match getDocumentAsync sh pickerTypes with
  | Throws _ =>
      (m, [PickerAsked pickerTypes;
           ShellAlert "Error" "Failed to pick document"])
  | Returns result =>
      match pickedAsset result with
      | Some file =>
          (mkMachine (mkApp (Some (selectionOf file))
                            (isConverting (react m)) None)
                     (disk m) (trace m),
           [PickerAsked pickerTypes; SelectedFileSet (selectionOf file);
            DownloadUrlCleared])
      | None => (m, [PickerAsked pickerTypes])
      end
  end.

(** What the [catch] block of [openPDF] shows (lines 189-190). *)
Definition openFailedAlert (msg : option string) : ShellEvent :=
  ShellAlert "Error"
             ("Failed to open PDF: " +++
              match msg with
              | Some text => text
              | None => "Unknown error occurred"
              end).

(** [openPDF] (lines 172-192); [!downloadUrl] holds of [null] and of the
    empty string. *)
Definition openPDF (w : World) (sh : Shell) (m : Machine)
  : Machine * list ShellEvent :=
  match orNull (downloadUrl (react m)) with
  | None => (m, [])
  | Some url =>
      (m,
       InfoAsked url ::
       match getInfoAsync w url with
       | Throws msg => [openFailedAlert msg]
       | Returns fileInfo =>
           if negb (fileExists fileInfo)
           then [ShellAlert "Error" "PDF file not found"]
           else
             ContentUriAsked url ::
             match getContentUriAsync sh url with
             | Throws msg => [openFailedAlert msg]
             | Returns contentUri =>
                 UrlOpened contentUri ::
                 match openURL sh contentUri with
                 | Throws msg => [openFailedAlert msg]
                 | Returns _ => []
                 end
             end
       end)
  end.

(** What the view shows of the state (lines 194-226). *)
Record View : Type := mkView {
  selectFileDisabled : bool;
  selectedLabel : option string;
  convertDisabled : bool;
  convertingShown : bool;
  openPdfShown : bool
}.

Definition render (s : AppState) : View :=
  mkView (isConverting s)
         (match selectedFile s with
          | Some f => Some ("Selected: " +++ name f)
          | None => None
          end)
         (match selectedFile s with
          | Some _ => isConverting s
          | None => true
          end)
         (isConverting s)
         (match orNull (downloadUrl s) with
          | Some _ => true
          | None => false
          end).

(** The state [useState] starts from (lines 27-29), on an empty disk. *)
Definition initialMachine : Machine :=
  mkMachine (mkApp None false None) [] [].

(** A press of one of the three buttons; a disabled or hidden button does
    nothing.  The picker and the viewer may answer differently at every
    press; the file system is one world. *)
Inductive Button : Type := SelectFile | ConvertToPDF | OpenPDF.

Definition press (w : World) (sh : Shell) (b : Button) (m : Machine) : Machine :=
  match b with
  | SelectFile =>
      if selectFileDisabled (render (react m)) then m
      else fst (pickDocument sh m)
  | ConvertToPDF =>
      if convertDisabled (render (react m)) then m
      else snd (convertToPDF w m)
  | OpenPDF =>
      if openPdfShown (render (react m)) then fst (openPDF w sh m) else m
  end.

(** A session: presses one after the other, each handler running to its
    end before the next press. *)
Fixpoint session (w : World) (presses : list (Shell * Button)) (m : Machine)
  : Machine :=
  match presses with
  | [] => m
  | (sh, b) :: rest => session w rest (press w sh b m)
  end.

(** What holds of the machine between presses. *)
Definition atRest (w : World) (m : Machine) : Prop :=
  isConverting (react m) = false /\
  (forall f, selectedFile (react m) = Some f ->
             name f <> "" /\ mimeType f <> Some "") /\
  (forall u, downloadUrl (react m) = Some u ->
             exists f data,
               selectedFile (react m) = Some f /\
               u = pdfUriOf w f /\
               In (u, data) (disk m)) /\
  Forall (fun e => e <> Alert "Error" "Please select a file first") (trace m).

(** A text of three lines, the last one empty, and its world. *)
Definition threeLines : string := Str.joinLines ["alpha"; "beta"; ""].

(** A page whose lines are the first ones of the grid. *)
Definition onItsGrid (p : PageCanvas) : Prop :=
  lineHeights p = gridHeights (linesOnPage p).

(** The decoding steps of the image strategy. *)
Definition isDecoding (e : Event) : bool :=
  match e with
  | DecodeBase64 _ | EmbedPng _ | EmbedJpg _ => true
  | _ => false
  end.

(** The embedding call the declared type selects (lines 107-111). *)
Definition embedEvent (f : SelectedFile) (bytes : list Byte.byte) : Event :=
  if mimeIs (mimeType f) "image/png" then EmbedPng bytes else EmbedJpg bytes.

(** A picker that answers with two assets, the first one without a name
    and with an empty type; a viewer that opens what it is given. *)
Definition unnamedAsset : Asset := mkAsset "content://picked/1" "" (Some "").
Definition photoAsset : Asset :=
  mkAsset "content://picked/2" "photo.png" (Some "image/png").

Definition pickerShell (result : PickerResult) : Shell :=
  mkShell (fun _ => Returns result)
          (fun u => Returns ("content://provider/" +++ u))
          (fun _ => Returns tt).

(** A machine at rest whose last conversion left a PDF. *)
Definition converted (f : SelectedFile) (url : string) : Machine :=
  mkMachine (mkApp (Some f) false (Some url)) [(url, "")] [].





(** A world whose global encoder throws and whose Buffer encoder answers
    with a mark before the text. *)
Definition bufferWorld : World :=
  mkWorld (fun _ => Returns "hello") (fun _ => Returns "")
          (fun s => Returns s)
          (fun _ => Throws None) (fun _ => Throws None)
          (fun _ => Returns (mkFileInfo false 0))
          (fun _ => Returns [Byte.x25; Byte.x50; Byte.x44; Byte.x46])
          (fun _ => Throws (Some "btoa is not defined"))
          (fun s => Returns ("b64:" +++ s)) (fun _ _ => Returns tt)
          (Some "file:///documents/") "11/2/2026, 10:00:00 AM".

(** The machine the [try] block of [convertToPDF] starts on: the one
    [setIsConverting(true)] (line 58) leaves. *)
Definition raised (m : Machine) : Machine := snd (setIsConverting true m).


(* ------------------------------------------------------------------ *)
(** ** Text layout *)

Lemma appendOp_last (ps : list PageCanvas) (cur : PageCanvas)
      (op : DrawOperation) :
  appendOp (ps ++ [cur]) (length ps) op =
  ps ++ [mkPage (pageWidth cur) (pageHeight cur) (ops cur ++ [op])].
Proof.
  induction ps as [|p ps IH]; simpl.
  - reflexivity.
  - now rewrite IH.
Qed.

Lemma layoutLine_same_page ps cur imgs y line :
  (50 <= y)%Z ->
  layoutLine (mkCursor (mkDoc (ps ++ [cur]) imgs) (length ps) y) line =
  inr (mkCursor
         (mkDoc (ps ++ [mkPage (pageWidth cur) (pageHeight cur)
                               (ops cur ++ [lineOp line y])]) imgs)
         (length ps) (y - 14)).
Proof.
  intros Hy. unfold layoutLine. cbn [yPosition].
  destruct (Z.ltb_spec y 50) as [H|_]; [lia|].
  cbn. now rewrite appendOp_last.
Qed.

Lemma layoutLine_new_page ps cur imgs y line :
  (y < 50)%Z ->
  layoutLine (mkCursor (mkDoc (ps ++ [cur]) imgs) (length ps) y) line =
  inr (mkCursor
         (mkDoc ((ps ++ [cur]) ++ [mkPage 595 842 [lineOp line 750]]) imgs)
         (length (ps ++ [cur])) 736).
Proof.
  intros Hy. unfold layoutLine. cbn [yPosition].
  destruct (Z.ltb_spec y 50) as [_|H]; [|lia].
  cbn -[app length]. 
  rewrite (appendOp_last (ps ++ [cur]) (mkPage 595 842 [])).
  reflexivity.
Qed.

Lemma linesOnPage_snoc_line w h os line y :
  linesOnPage (mkPage w h (os ++ [lineOp line y])) = S (linesOnPage (mkPage w h os)).
Proof.
  unfold linesOnPage. cbn [ops]. rewrite filter_app, length_app.
  cbn. lia.
Qed.

Lemma onGrid_isLine (op : DrawOperation) : onGrid op -> isLine op = true.
Proof. intros (line & k & _ & ->). reflexivity. Qed.

(** The loop from a cursor on the last page, [k] lines into it: it
    returns, it only appends lines on the grid to that page and to pages
    it adds, and it fills pages as [pageFill] says. *)
Lemma layoutLines_pages (lines : list string) :
  forall ps cur imgs k,
    linesOnPage cur = k -> (k <= 51)%nat ->
    exists c' extra more,
      layoutLines lines
        (mkCursor (mkDoc (ps ++ [cur]) imgs) (length ps)
                  (750 - 14 * Z.of_nat k)) = inr c' /\
      pages (curDoc c') =
        ps ++ mkPage (pageWidth cur) (pageHeight cur) (ops cur ++ extra) :: more /\
      images (curDoc c') = imgs /\
      Forall onGrid extra /\
      Forall (fun p => Forall onGrid (ops p)) more /\
      map linesOnPage (pages (curDoc c')) =
        map linesOnPage ps ++ pageFill k (length lines).
Proof.
  induction lines as [|line rest IH]; intros ps cur imgs k Hk Hle.
  - exists (mkCursor (mkDoc (ps ++ [cur]) imgs) (length ps)
                     (750 - 14 * Z.of_nat k)), [], [].
    cbn [layoutLines curDoc pages images length pageFill].
    rewrite app_nil_r, map_app. cbn [map]. rewrite Hk.
    destruct cur; cbn. repeat split; auto.
  - cbn [layoutLines length pageFill].
    destruct (Nat.leb_spec 51 k) as [Hfull|Hroom].
    + rewrite layoutLine_new_page by lia. cbn [bindR].
      destruct (IH (ps ++ [cur]) (mkPage 595 842 [lineOp line 750]) imgs 1%nat)
        as (c' & extra & more & Hrun & Hpages & Himgs & Hextra & Hmore & Hcount);
        [reflexivity | lia |].
      exists c', [], (mkPage 595 842 ([lineOp line 750] ++ extra) :: more).
      change (750 - 14 * Z.of_nat 1)%Z with 736%Z in Hrun.
      repeat split; auto.
      * rewrite Hpages. cbn [pageWidth pageHeight ops].
        rewrite <- app_assoc. cbn [app]. rewrite app_nil_r.
        destruct cur; reflexivity.
      * constructor; [|exact Hmore]. cbn [ops].
        apply Forall_app. split; [|exact Hextra].
        constructor; [|constructor].
        exists line, 0%nat. split; [lia|reflexivity].
      * rewrite Hcount, map_app, <- app_assoc. cbn [map app].
        now rewrite Hk.
    + rewrite layoutLine_same_page by lia. cbn [bindR].
      destruct (IH ps (mkPage (pageWidth cur) (pageHeight cur)
                              (ops cur ++ [lineOp line (750 - 14 * Z.of_nat k)]))
                   imgs (S k))
        as (c' & extra & more & Hrun & Hpages & Himgs & Hextra & Hmore & Hcount);
        [rewrite linesOnPage_snoc_line; destruct cur; cbn in *; now rewrite Hk
        | lia |].
      exists c', (lineOp line (750 - 14 * Z.of_nat k) :: extra), more.
      replace (750 - 14 * Z.of_nat k - 14)%Z
        with (750 - 14 * Z.of_nat (S k))%Z by lia.
      repeat split; auto.
      * rewrite Hpages. cbn [pageWidth pageHeight ops].
        now rewrite <- app_assoc.
      * constructor; [|exact Hextra]. exists line, k. split; [lia|reflexivity].
Qed.

Lemma pageFill_closed (n : nat) :
  forall k, (k <= 51)%nat -> (1 <= k + n)%nat ->
    pageFill k n =
    repeat 51%nat ((k + n - 1) / 51) ++ [(k + n - 51 * ((k + n - 1) / 51))%nat].
Proof.
  induction n as [|n IH]; intros k Hk Hn; cbn [pageFill].
  - replace ((k + 0 - 1) / 51)%nat with 0%nat
      by (symmetry; apply Nat.div_small; lia).
    cbn [repeat app]. f_equal. lia.
  - destruct (Nat.leb_spec 51 k) as [H|H].
    + assert (k = 51)%nat by lia. subst k.
      rewrite IH by lia.
      replace (51 + S n - 1)%nat with (1 * 51 + (1 + n - 1))%nat by lia.
      rewrite Nat.div_add_l by lia.
      set (q := ((1 + n - 1) / 51)%nat).
      replace (1 + q)%nat with (S q) by lia.
      cbn [repeat app]. do 3 f_equal. lia.
    + rewrite IH by lia.
      replace (S k + n)%nat with (k + S n)%nat by lia. reflexivity.
Qed.

(** [split] always yields at least one piece. *)
Lemma split_nonempty sep s : (1 <= length (Str.split sep s))%nat.
Proof.
  destruct s as [|c rest]; cbn; [lia|].
  destruct (Ascii.eqb c sep); cbn; [lia|].
  destruct (Str.split sep rest); cbn; lia.
Qed.


(* ------------------------------------------------------------------ *)
(** ** The dispatcher *)

Lemma prefix_append (p s : string) :
  String.prefix p s = true <-> exists rest, s = p +++ rest.
Proof.
  revert s. induction p as [|c p IH]; intros s.
  - split; [exists s; reflexivity | destruct s; reflexivity].
  - destruct s as [|d s]; cbn [String.prefix].
    + split; [discriminate | intros [rest H]; discriminate].
    + destruct (ascii_dec c d) as [->|Hne].
      * rewrite IH. split; intros [rest H]; exists rest; cbn in *; congruence.
      * split; [discriminate | intros [rest H]; cbn in H; congruence].
Qed.

(** Lines 61-73: the title page is there before the strategy is chosen. *)
Lemma buildDocument_dispatch (w : World) (f : SelectedFile) (m : Machine) :
  buildDocument w f m =
  (if mimeStartsWith (mimeType f) "text/"
   then textStrategy w f (titledDoc f) 0%nat
   else if mimeStartsWith (mimeType f) "image/"
        then imageStrategy w f (titledDoc f) 0%nat
        else fallbackStrategy w f (titledDoc f) 0%nat) m.
Proof. reflexivity. Qed.


Ltac prefix_absurd :=
  match goal with
  | Ht : String.prefix ?p ?s = false |- _ =>
      let Hx := fresh in
      assert (String.prefix p s = true) as Hx
        by (apply prefix_append; eexists; reflexivity);
      rewrite Hx in Ht; discriminate
  end.


(** C3: the strategy that runs is the one the selection rule names: a
    declared type that starts with text/ runs the text layout, otherwise one
    that starts with image/ runs the image embedding, and every other
    declared type, the absent one included, runs the metadata fallback.  The
    match is on the characters as they are, so TEXT/plain is not a text
    type. *)
Theorem strategy_selection (w : World) (f : SelectedFile) (m : Machine) :
  buildDocument w f m =
    runStrategy (selectionRule (mimeType f)) w f (titledDoc f) 0%nat m
  /\ (selectionRule (mimeType f) = TextLayout <->
      exists rest, mimeType f = Some ("text/" +++ rest))
  /\ (selectionRule (mimeType f) = ImageEmbedding <->
      exists rest, mimeType f = Some ("image/" +++ rest))
  /\ (selectionRule (mimeType f) = MetadataFallback <->
      mimeType f = None \/
      exists s, mimeType f = Some s /\
                (forall rest, s <> "text/" +++ rest) /\
                (forall rest, s <> "image/" +++ rest))
  /\ selectionRule None = MetadataFallback
  /\ selectionRule (Some "TEXT/plain") = MetadataFallback.
Proof.
  split; [|split; [|split; [|split; [|split]]]]; try reflexivity.
  - rewrite buildDocument_dispatch.
    unfold selectionRule, mimeStartsWith, Str.startsWith.
    destruct (mimeType f) as [s|]; [|reflexivity].
    destruct (String.prefix "text/" s); [reflexivity|].
    destruct (String.prefix "image/" s); reflexivity.
  - unfold selectionRule. destruct (mimeType f) as [s|].
    + destruct (String.prefix "text/" s) eqn:Ht.
      * apply prefix_append in Ht. destruct Ht as [rest ->].
        split; [intros _; now exists rest | reflexivity].
      * split.
        -- destruct (String.prefix "image/" s); discriminate.
        -- intros [rest H]. injection H as ->.
           prefix_absurd.
    + split; [discriminate | intros [rest H]; discriminate].
  - unfold selectionRule. destruct (mimeType f) as [s|].
    + destruct (String.prefix "text/" s) eqn:Ht.
      * apply prefix_append in Ht. destruct Ht as [rest ->].
        split; [discriminate | intros [r H]; discriminate].
      * destruct (String.prefix "image/" s) eqn:Hi.
        -- apply prefix_append in Hi. destruct Hi as [rest ->].
           split; [intros _; now exists rest | reflexivity].
        -- split; [discriminate|].
           intros [rest H]. injection H as ->.
           prefix_absurd.
    + split; [discriminate | intros [rest H]; discriminate].
  - unfold selectionRule. destruct (mimeType f) as [s|].
    + destruct (String.prefix "text/" s) eqn:Ht.
      * apply prefix_append in Ht. destruct Ht as [rest ->].
        split; [discriminate|].
        intros [H|(s' & H & Hn & _)]; [discriminate|].
        injection H as <-. now destruct (Hn rest).
      * destruct (String.prefix "image/" s) eqn:Hi.
        -- apply prefix_append in Hi. destruct Hi as [rest ->].
           split; [discriminate|].
           intros [H|(s' & H & _ & Hn)]; [discriminate|].
           injection H as <-. now destruct (Hn rest).
        -- split; [|reflexivity]. intros _. right. exists s.
           split; [reflexivity|]. split; intros rest ->.
           ++ prefix_absurd.
           ++ prefix_absurd.
    + split; [now left | reflexivity].
Qed.

(* ------------------------------------------------------------------ *)
(** ** Pagination of text files *)

(** The text strategy on a readable file: the read is the one call made,
    and the loop fills pages of 51 lines after the title. *)
Lemma textStrategy_pages (w : World) (f : SelectedFile) (m : Machine)
      (textContent : string) :
  readAsStringAsync w (uri f) = Returns textContent ->
  exists doc extra more,
    textStrategy w f (titledDoc f) 0%nat m =
      (inr doc, mkMachine (react m) (disk m) (trace m ++ [ReadText (uri f)])) /\
    pages doc = mkPage 595 842 (titleOp f :: extra) :: more /\
    images doc = [] /\
    Forall onGrid extra /\
    Forall (fun p => Forall onGrid (ops p)) more /\
    map linesOnPage (pages doc) =
      pageFill 0 (length (Str.split Str.LF textContent)).
Proof.
  intros Hread.
  destruct (layoutLines_pages (Str.split Str.LF textContent) []
              (mkPage 595 842 [titleOp f]) [] 0%nat)
    as (c' & extra & more & Hrun & Hpages & Himgs & Hextra & Hmore & Hcount);
    [reflexivity | lia |].
  exists (curDoc c'), extra, more.
  unfold textStrategy, call, bind, emit, lift, ret. rewrite Hread.
  cbn [throw ok]. unfold titledDoc.
  change (750 - 14 * Z.of_nat 0)%Z with 750%Z in Hrun.
  cbn [app length] in Hrun. rewrite Hrun.
  repeat split; auto.
Qed.

(** C1 (amended): a text file whose payload splits on line feeds into
    totalLines lines is built into 1 + floor((totalLines - 1) / 51) pages,
    which is one page exactly when totalLines is at most 51: a page takes
    51 lines, at the heights 750, 736, ..., 50, because the page break is
    taken only below 50; but for the title every operation of the document
    is a line at one of these heights.  Every page but the last holds 51
    lines and the last holds the rest; a payload of 120 lines makes 3 pages
    holding 51, 51 and 18 lines. *)
Theorem text_page_count (w : World) (f : SelectedFile) (m : Machine)
        (textContent : string) :
  mimeStartsWith (mimeType f) "text/" = true ->
  readAsStringAsync w (uri f) = Returns textContent ->
  exists doc m',
    buildDocument w f m = (inr doc, m') /\
    length (pages doc) =
      (1 + (length (Str.split Str.LF textContent) - 1) / 51)%nat /\
    (length (pages doc) = 1%nat <->
     (length (Str.split Str.LF textContent) <= 51)%nat) /\
    map linesOnPage (pages doc) =
      repeat 51%nat ((length (Str.split Str.LF textContent) - 1) / 51) ++
      [(length (Str.split Str.LF textContent)
        - 51 * ((length (Str.split Str.LF textContent) - 1) / 51))%nat] /\
    (forall p op, In p (pages doc) -> In op (ops p) ->
                  op = titleOp f \/ onGrid op) /\
    (length (Str.split Str.LF textContent) = 120%nat ->
     map linesOnPage (pages doc) = [51; 51; 18]%nat).
Proof.
  intros Hmime Hread.
  destruct (textStrategy_pages w f m textContent Hread)
    as (doc & extra & more & Hrun & Hpages & _ & Hextra & Hmore & Hcount).
  exists doc, (mkMachine (react m) (disk m) (trace m ++ [ReadText (uri f)])).
  rewrite buildDocument_dispatch, Hmime.
  pose proof (split_nonempty Str.LF textContent) as Hn.
  set (n := length (Str.split Str.LF textContent)) in *.
  rewrite pageFill_closed in Hcount by lia. cbn [Nat.add] in Hcount.
  assert (Hlen : length (pages doc) = (1 + (n - 1) / 51)%nat).
  { rewrite <- (length_map linesOnPage), Hcount, length_app, repeat_length.
    cbn [length]. lia. }
  split; [exact Hrun|]. split; [exact Hlen|]. split; [|split; [|split]].
  - rewrite Hlen. split; intros H.
    + assert (Hq : ((n - 1) / 51 = 0)%nat) by lia.
      apply Nat.div_small_iff in Hq; lia.
    + rewrite Nat.div_small by lia. reflexivity.
  - exact Hcount.
  - intros p op Hp Hop. rewrite Hpages in Hp.
    rewrite Forall_forall in Hextra, Hmore.
    destruct Hp as [<-|Hp].
    + destruct Hop as [<-|Hop]; [now left|right; now apply Hextra].
    + right. specialize (Hmore p Hp). rewrite Forall_forall in Hmore.
      now apply Hmore.
  - intros H120. rewrite Hcount, H120. reflexivity.
Qed.

(** The theorem at a text of 120 short lines. *)
Lemma text_page_count_witness :
  exists doc m',
    buildDocument (textWorld (shortLines 120)) notesFile (idle notesFile)
      = (inr doc, m') /\
    length (pages doc) = 3%nat /\
    map linesOnPage (pages doc) = [51; 51; 18]%nat.
Proof.
  destruct (text_page_count (textWorld (shortLines 120)) notesFile
              (idle notesFile) (shortLines 120) eq_refl eq_refl)
    as (doc & m' & Hrun & Hlen & _ & _ & _ & H120).
  exists doc, m'. split; [exact Hrun|]. split.
  - rewrite Hlen. vm_compute. reflexivity.
  - apply H120. vm_compute. reflexivity.
Defined.

(** C1 as stated fails: with 50 lines to a page, 120 lines would lie 50, 50
    and 20 to a page and 51 lines would need a second page; the code puts
    51, 51 and 18 lines on the three pages and keeps 51 lines on one page.
    The stated formula gives 2 pages for 120 lines at a capacity of 50, and
    at a capacity of 51 it gives 1 page for 52 lines, which take 2. *)
Lemma text_page_count_counterexample :
  builtPageLines (textWorld (shortLines 120)) notesFile (idle notesFile)
    = Some [51; 51; 18]%nat
  /\ [51; 51; 18]%nat <> [50; 50; 20]%nat
  /\ length [51; 51; 18]%nat <> (1 + (120 - 50) / 50)%nat
  /\ builtPageLines (textWorld (shortLines 51)) notesFile (idle notesFile)
    = Some [51%nat]
  /\ builtPageLines (textWorld (shortLines 52)) notesFile (idle notesFile)
    = Some [51; 1]%nat
  /\ length [51; 1]%nat <> (1 + (52 - 51) / 51)%nat.
Proof.
  split; [vm_compute; reflexivity|].
  split; [discriminate|].
  split; [vm_compute; discriminate|].
  split; [vm_compute; reflexivity|].
  split; [vm_compute; reflexivity|].
  vm_compute; discriminate.
Qed.

(* ------------------------------------------------------------------ *)
(** ** Runs of the document construction *)

Ltac destruct_reply :=
  match goal with
  | |- context [match ?r with Throws _ => _ | Returns _ => _ end] =>
      let H := fresh "Hreply" in destruct r eqn:H
  end.

Ltac replies :=
  cbn;
  repeat match goal with
         | H : _ = Throws _ |- _ => rewrite H
         | H : _ = Returns _ |- _ => rewrite H
         end;
  auto.

Ltac all_succeeded :=
  repeat apply Forall_cons; try apply Forall_nil; replies.

Ltac failing_last pre e :=
  exists pre, e; split; [reflexivity|]; split; [all_succeeded | replies].

Ltac run_ends :=
  rewrite <- ?app_assoc; cbn [app];
  eexists _, _; split; [reflexivity|].

Lemma isLine_not_title (f : SelectedFile) (op : DrawOperation) :
  isLine op = true -> op <> titleOp f.
Proof. intros H ->. discriminate H. Qed.

Lemma textStrategy_unreadable (w : World) (f : SelectedFile) (m : Machine)
      (msg : option string) (doc : Document) (page : PageRef) :
  readAsStringAsync w (uri f) = Throws msg ->
  textStrategy w f doc page m =
    (inl (mkExn SourceUnreadable msg), record m [ReadText (uri f)]).
Proof.
  intros H. unfold textStrategy, call, bind, emit, lift. now rewrite H.
Qed.

(** Every construction is a sequence of distinct calls that stops at the
    first failing one; it touches neither the React state nor the disk; a
    failure carries the kind of its call site; a success yields a document
    that starts with the title page. *)
Lemma buildDocument_run (w : World) (f : SelectedFile) (m : Machine) :
  exists r calls,
    buildDocument w f m = (r, record m calls) /\
    stopsAtFirstFailure w calls r /\
    Forall (fun e => isBuildCall e = true) calls /\
    match r with
    | inl e => isPipelineError (kind e) = true
    | inr doc => titledPages f doc
    end.
Proof.
  rewrite buildDocument_dispatch.
  destruct (mimeStartsWith (mimeType f) "text/") eqn:Htext;
    [|destruct (mimeStartsWith (mimeType f) "image/") eqn:Himage].
  - (* text *)
    destruct (readAsStringAsync w (uri f)) as [msg|txt] eqn:Hread.
    + rewrite (textStrategy_unreadable w f m msg _ _ Hread).
      run_ends.
      split; [|split; [|reflexivity]].
      * split; [|split].
        -- repeat constructor.
        -- repeat constructor. intros [].
        -- failing_last (@nil Event) (ReadText (uri f)).
      * repeat constructor.
    + destruct (textStrategy_pages w f m txt Hread)
        as (doc & extra & more & Hrun & Hpages & _ & Hextra & Hmore & _).
      exists (inr doc), [ReadText (uri f)].
      split; [exact Hrun|]. split; [|split].
      * split; [|split].
        -- repeat constructor.
        -- repeat constructor. intros [].
        -- all_succeeded.
      * repeat constructor.
      * exists extra, more. split; [exact Hpages|]. split.
        -- eapply Forall_impl; [|exact Hextra].
           intros op Hop. now apply isLine_not_title, onGrid_isLine.
        -- eapply Forall_impl; [|exact Hmore].
           intros p Hp. eapply Forall_impl; [|exact Hp].
           exact onGrid_isLine.
  - (* image *)
    unfold imageStrategy, embedPng, embedJpg, call, bind, emit, lift, ret.
    destruct (readAsBase64Async w (uri f)) as [msg|data] eqn:Hread; cbn.
    { run_ends. split; [|split; [|reflexivity]].
      - split; [|split]; [repeat constructor | repeat constructor; intros [] |].
        failing_last (@nil Event) (ReadBase64 (uri f)).
      - repeat constructor. }
    destruct (atob w data) as [msg|binary] eqn:Hatob; cbn.
    { run_ends. split; [|split; [|reflexivity]].
      - split; [|split].
        + repeat constructor.
        + repeat constructor; cbn; intuition discriminate.
        + failing_last ([ReadBase64 (uri f)]) (DecodeBase64 data).
      - repeat constructor. }
    destruct (mimeIs (mimeType f) "image/png"); cbn.
    + destruct (decodePng w (list_byte_of_string binary)) as [msg|[wd ht]] eqn:Hdec;
        cbn.
      * run_ends. split; [|split; [|reflexivity]].
        -- split; [|split].
           ++ repeat constructor.
           ++ repeat constructor; cbn; intuition discriminate.
           ++ failing_last [ReadBase64 (uri f); DecodeBase64 data]
                (EmbedPng (list_byte_of_string binary)).
        -- repeat constructor.
      * run_ends. split; [|split].
        -- split; [|split].
           ++ repeat constructor.
           ++ repeat constructor; cbn; intuition discriminate.
           ++ all_succeeded.
        -- repeat constructor.
        -- eexists _, _. cbn. split; [reflexivity|].
           split; repeat constructor. discriminate.
    + destruct (decodeJpg w (list_byte_of_string binary)) as [msg|[wd ht]] eqn:Hdec;
        cbn.
      * run_ends. split; [|split; [|reflexivity]].
        -- split; [|split].
           ++ repeat constructor.
           ++ repeat constructor; cbn; intuition discriminate.
           ++ failing_last [ReadBase64 (uri f); DecodeBase64 data]
                (EmbedJpg (list_byte_of_string binary)).
        -- repeat constructor.
      * run_ends. split; [|split].
        -- split; [|split].
           ++ repeat constructor.
           ++ repeat constructor; cbn; intuition discriminate.
           ++ all_succeeded.
        -- repeat constructor.
        -- eexists _, _. cbn. split; [reflexivity|].
           split; repeat constructor. discriminate.
  - (* anything else *)
    unfold fallbackStrategy, call, bind, emit, lift.
    destruct (getInfoAsync w (uri f)) as [msg|info] eqn:Hinfo; cbn.
    + run_ends. split; [|split; [|reflexivity]].
      * split; [|split]; [repeat constructor | repeat constructor; intros [] |].
        failing_last (@nil Event) (GetInfo (uri f)).
      * repeat constructor.
    + run_ends. split; [|split].
      * split; [|split]; [repeat constructor | repeat constructor; intros [] |].
        all_succeeded.
      * repeat constructor.
      * eexists _, _. cbn. split; [reflexivity|].
        split; repeat constructor; discriminate.
Qed.

(* ------------------------------------------------------------------ *)
(** ** Runs of the whole attempt *)

Section Runs.

Variable w : World.

Lemma NoDup_snoc {A} (l : list A) (x : A) :
  NoDup l -> ~ In x l -> NoDup (l ++ [x]).
Proof.
  intros Hl Hx. induction Hl as [|y l Hy Hl IH]; cbn.
  - constructor; [intros []|constructor].
  - constructor.
    + rewrite in_app_iff. cbn. intros [H|[H|[]]]; [now apply Hy|].
      subst. apply Hx. now left.
    + apply IH. intros H. apply Hx. now right.
Qed.

Lemma not_build_call_fresh (calls : list Event) (e : Event) :
  Forall (fun c => isBuildCall c = true) calls ->
  isBuildCall e = false -> ~ In e calls.
Proof.
  intros Hall He Hin. rewrite Forall_forall in Hall.
  specialize (Hall e Hin). congruence.
Qed.

(** One more call after a sequence whose calls all succeeded. *)
Lemma stops_extend {A B} (calls : list Event) (a : A) (e : Event)
      (r : Result B) :
  stopsAtFirstFailure w calls (inr a) ->
  isCall e = true -> ~ In e calls ->
  (match r with inl _ => true | inr _ => false end) = replyFailed w e ->
  stopsAtFirstFailure w (calls ++ [e]) r.
Proof.
  intros (Hcalls & Hnodup & Hok) He Hfresh Hr.
  split; [|split].
  - apply Forall_app. split; [exact Hcalls|]. now constructor.
  - now apply NoDup_snoc.
  - destruct r as [x|b].
    + exists calls, e. auto.
    + apply Forall_app. split; [exact Hok|]. constructor; [now symmetry|constructor].
Qed.

Lemma fresh_after_build (built tail : list Event) (e : Event) :
  Forall (fun c => isBuildCall c = true) built ->
  isBuildCall e = false -> ~ In e tail -> ~ In e (built ++ tail).
Proof.
  intros Hbuilt He Htail Hin. apply in_app_iff in Hin.
  destruct Hin as [Hin|Hin]; [|now apply Htail].
  revert Hin. now apply not_build_call_fresh.
Qed.

(** The attempt: the construction, then [Save], the base-64 encoding and
    [WriteFile]; a failure leaves the machine as it was but for the trace,
    a success leaves the PDF on disk and its path in [downloadUrl]. *)
Lemma conversionAttempt_run (f : SelectedFile) (m : Machine) :
  exists (r : Result unit) calls,
    stopsAtFirstFailure w calls r /\
    match r with
    | inl e =>
        conversionAttempt w f m = (inl e, record m calls) /\
        isPipelineError (kind e) = true
    | inr _ =>
        exists doc pdfBytes data built,
          conversionAttempt w f m =
            (inr tt,
             persisted w f m data
               (calls ++ [SetDownloadUrl (pdfUriOf w f); successAlert])) /\
          calls = built ++ persistCalls w f doc pdfBytes data /\
          buildDocument w f m = (inr doc, record m built) /\
          titledPages f doc /\
          serialize w doc = Returns pdfBytes /\
          btoa w (string_of_list_byte pdfBytes) = Returns data
    end.
Proof.
  destruct (buildDocument_run w f m) as (r & built & Hrun & Hstop & Hbuilt & Hr).
  unfold conversionAttempt, bind. rewrite Hrun.
  destruct r as [e|doc].
  - exists (inl e), built. auto.
  - assert (Hsave : stopsAtFirstFailure w (built ++ [Save doc])
              (match serialize w doc with
               | Throws msg => throw SerializationError msg
               | Returns b => ok b
               end : Result (list Byte.byte))).
    { apply (stops_extend built doc); auto.
      - now apply not_build_call_fresh.
      - cbn. now destruct (serialize w doc). }
    unfold call, writeFile, setDownloadUrl, alert, emit, lift, bind.
    cbn [record react disk trace].
    destruct (serialize w doc) as [msg|pdfBytes] eqn:Hser; cbn [throw ok] in *.
    { exists (inl (mkExn SerializationError msg)), (built ++ [Save doc]).
      split; [exact Hsave|]. split; [|reflexivity].
      unfold record. cbn. now rewrite <- !app_assoc. }
    set (binary := string_of_list_byte pdfBytes).
    assert (Hencode : stopsAtFirstFailure w
              (built ++ [Save doc; EncodeBase64 binary])
              (match btoa w binary with
               | Throws msg => throw PersistenceFailure msg
               | Returns b => ok b
               end : Result string)).
    { change (built ++ [Save doc; EncodeBase64 binary])
        with (built ++ [Save doc] ++ [EncodeBase64 binary]).
      rewrite app_assoc.
      apply (stops_extend _ pdfBytes); auto.
      - apply fresh_after_build; auto. cbn. intuition discriminate.
      - cbn. now destruct (btoa w binary). }
    destruct (btoa w binary) as [msg|data] eqn:Henc; cbn [throw ok] in *.
    { exists (inl (mkExn PersistenceFailure msg)),
        (built ++ [Save doc; EncodeBase64 binary]).
      split; [exact Hencode|]. split; [|reflexivity].
      unfold record. cbn. now rewrite <- !app_assoc. }
    assert (Hwrite : stopsAtFirstFailure w
              (built ++ persistCalls w f doc pdfBytes data)
              (match writeAsStringAsync w (pdfUriOf w f) data with
               | Throws msg => throw PersistenceFailure msg
               | Returns b => ok b
               end : Result unit)).
    { change (built ++ persistCalls w f doc pdfBytes data)
        with (built ++ [Save doc; EncodeBase64 binary]
                    ++ [WriteFile (pdfUriOf w f) data]).
      rewrite app_assoc.
      apply (stops_extend _ data); auto.
      - apply fresh_after_build; auto. cbn. intuition discriminate.
      - cbn. now destruct (writeAsStringAsync w (pdfUriOf w f) data). }
    destruct (writeAsStringAsync w (pdfUriOf w f) data) as [msg|[]] eqn:Hwr;
      cbn [throw ok] in *.
    + exists (inl (mkExn PersistenceFailure msg)),
        (built ++ persistCalls w f doc pdfBytes data).
      split; [exact Hwrite|]. split; [|reflexivity].
      unfold record, persistCalls. cbn. now rewrite <- !app_assoc.
    + exists (inr tt), (built ++ persistCalls w f doc pdfBytes data).
      split; [exact Hwrite|].
      exists doc, pdfBytes, data, built.
      split; [|auto].
      unfold persisted, persistCalls. cbn. now rewrite <- !app_assoc.
Qed.

End Runs.

(* ------------------------------------------------------------------ *)
(** ** Runs of [convertToPDF] *)

(** With a file selected, an invocation raises the busy flag, makes its
    calls, and ends either in the [catch] block, nothing persisted, or with
    the PDF on disk; the [finally] block lowers the busy flag in both. *)
Lemma convertToPDF_run (w : World) (m : Machine) (f : SelectedFile) :
  selectedFile (react m) = Some f ->
  exists (r : Result unit) calls,
    stopsAtFirstFailure w calls r /\
    match r with
    | inl e =>
        convertToPDF w m =
          (inr tt,
           settled f (downloadUrl (react m)) (disk m) m
             (SetIsConverting true :: calls ++
              [ConsoleLog e; failureAlert e; SetIsConverting false])) /\
        isPipelineError (kind e) = true
    | inr _ =>
        exists doc pdfBytes data built,
          convertToPDF w m =
            (inr tt,
             settled f (Some (pdfUriOf w f))
               ((pdfUriOf w f, data) :: disk m) m
               (SetIsConverting true :: calls ++
                [SetDownloadUrl (pdfUriOf w f); successAlert;
                 SetIsConverting false])) /\
          calls = built ++ persistCalls w f doc pdfBytes data /\
          Forall (fun e => isBuildCall e = true) built /\
          titledPages f doc /\
          serialize w doc = Returns pdfBytes /\
          btoa w (string_of_list_byte pdfBytes) = Returns data
    end.
Proof.
  intros Hsel.
  set (m1 := mkMachine (mkApp (selectedFile (react m)) true
                              (downloadUrl (react m)))
                       (disk m) (trace m ++ [SetIsConverting true])).
  destruct (conversionAttempt_run w f m1) as (r & calls & Hstop & Hr).
  exists r, calls. split; [exact Hstop|].
  unfold convertToPDF. rewrite Hsel.
  unfold bind, tryCatchFinally. cbn [setIsConverting]. fold m1.
  destruct r as [e|[]].
  - destruct Hr as [Hrun Hkind]. rewrite Hrun. split; [|exact Hkind].
    unfold conversionFailed, bind, emit, alert, setIsConverting, settled,
      record, failureAlert, m1. cbn.
    rewrite Hsel, <- !app_assoc. reflexivity.
  - destruct Hr as (doc & pdfBytes & data & built & Hrun & Hcalls & Hbuild
                    & Htitled & Hser & Henc).
    exists doc, pdfBytes, data, built. rewrite Hrun.
    split; [|split; [exact Hcalls|split; [|auto]]].
    + unfold setIsConverting, persisted, settled, m1. cbn.
      rewrite Hsel, <- !app_assoc. reflexivity.
    + destruct (buildDocument_run w f m1) as (r' & built' & Hrun' & _ & Hb' & _).
      rewrite Hbuild in Hrun'. injection Hrun' as _ Htr.
      apply app_inv_head in Htr. now subst built'.
Qed.

(** C4: with a file selected, the calls of an invocation (the reads, the
    decoding and embedding, the serialization, the encoding, the write) are
    pairwise distinct, so no step is made twice; when a step fails it is the
    last call made, every call before it succeeded, the disk is as it was
    and [downloadUrl] is as it was.  When every call succeeded the calls end
    with the serialization, the encoding and the write, the encoded PDF lies
    under its path and [downloadUrl] is that path. *)
Theorem failed_step_aborts_conversion (w : World) (m : Machine)
        (f : SelectedFile) :
  selectedFile (react m) = Some f ->
  exists calls ui,
    trace (snd (convertToPDF w m)) =
      trace m ++ SetIsConverting true :: calls ++ ui /\
    Forall (fun e => isCall e = true) calls /\
    Forall (fun e => isCall e = false) ui /\
    NoDup calls /\
    (forall step,
        In step calls -> replyFailed w step = true ->
        (exists before,
            calls = before ++ [step] /\
            Forall (fun e => replyFailed w e = false) before) /\
        disk (snd (convertToPDF w m)) = disk m /\
        downloadUrl (react (snd (convertToPDF w m))) = downloadUrl (react m)) /\
    (Forall (fun e => replyFailed w e = false) calls ->
     exists built doc pdfBytes data,
       calls = built ++ [Save doc;
                         EncodeBase64 (string_of_list_byte pdfBytes);
                         WriteFile (pdfUriOf w f) data] /\
       serialize w doc = Returns pdfBytes /\
       btoa w (string_of_list_byte pdfBytes) = Returns data /\
       disk (snd (convertToPDF w m)) = (pdfUriOf w f, data) :: disk m /\
       downloadUrl (react (snd (convertToPDF w m))) = Some (pdfUriOf w f)).
Proof.
  intros Hsel.
  destruct (convertToPDF_run w m f Hsel) as (r & calls & Hstop & Hr).
  destruct Hstop as (Hcalls & Hnodup & Hlast).
  exists calls.
  destruct r as [e|[]].
  - destruct Hr as [Hrun _]. rewrite Hrun. cbn [snd settled trace disk react downloadUrl].
    exists [ConsoleLog e; failureAlert e; SetIsConverting false].
    destruct Hlast as (before & failing & -> & Hbefore & Hfailing).
    split; [reflexivity|]. split; [exact Hcalls|].
    split; [repeat constructor|]. split; [exact Hnodup|]. split.
    + intros step Hin Hstep. split; [|auto].
      apply in_app_iff in Hin. destruct Hin as [Hin|[<-|[]]].
      * rewrite Forall_forall in Hbefore. specialize (Hbefore step Hin).
        congruence.
      * now exists before.
    + intros Hall. apply Forall_app in Hall. destruct Hall as [_ Hall].
      inversion Hall; subst. congruence.
  - destruct Hr as (doc & pdfBytes & data & built & Hrun & -> & _ & _ & Hser
                    & Henc).
    rewrite Hrun. cbn [snd settled trace disk react downloadUrl].
    exists [SetDownloadUrl (pdfUriOf w f); successAlert; SetIsConverting false].
    split; [reflexivity|]. split; [exact Hcalls|].
    split; [repeat constructor|]. split; [exact Hnodup|]. split.
    + intros step Hin Hstep. rewrite Forall_forall in Hlast.
      specialize (Hlast step Hin). congruence.
    + intros _. now exists built, doc, pdfBytes, data.
Qed.

(** The theorem at a GIF whose bytes the JPEG decoder rejects: the
    rejected call is the last one, and nothing is persisted. *)
Lemma failed_step_aborts_conversion_witness :
  exists calls ui,
    trace (snd (convertToPDF (textWorld "R0lGODlh") (idle gifFile))) =
      trace (idle gifFile) ++ SetIsConverting true :: calls ++ ui /\
    Forall (fun e => isCall e = true) calls /\
    Forall (fun e => isCall e = false) ui /\
    NoDup calls /\
    (forall step,
        In step calls -> replyFailed (textWorld "R0lGODlh") step = true ->
        (exists before,
            calls = before ++ [step] /\
            Forall (fun e => replyFailed (textWorld "R0lGODlh") e = false)
                   before) /\
        disk (snd (convertToPDF (textWorld "R0lGODlh") (idle gifFile))) = [] /\
        downloadUrl
          (react (snd (convertToPDF (textWorld "R0lGODlh") (idle gifFile))))
        = None).
Proof.
  destruct (failed_step_aborts_conversion (textWorld "R0lGODlh")
              (idle gifFile) gifFile eq_refl)
    as (calls & ui & Htrace & Hcalls & Hui & Hnodup & Hfail & _).
  exists calls, ui. auto.
Defined.

(** The attempt leaves the busy flag as it finds it. *)
Lemma conversionAttempt_keeps_flag (w : World) (f : SelectedFile)
      (m : Machine) :
  isConverting (react (snd (conversionAttempt w f m))) = isConverting (react m).
Proof.
  destruct (conversionAttempt_run w f m) as (r & calls & _ & Hr).
  destruct r as [e|[]].
  - destruct Hr as [Hrun _]. now rewrite Hrun.
  - destruct Hr as (doc & pdfBytes & data & built & Hrun & _).
    now rewrite Hrun.
Qed.

(** C10: without a selected file the invocation only raises the alert: the
    busy flag is not set and the React state is as it was.  With a file
    selected, [setIsConverting(true)] comes first and leaves a machine whose
    busy flag is true; the [try] block runs on that machine and leaves the
    flag true, and so does the [catch] block; the [finally] block sets it
    to false, which is the only other change of the flag, whether the
    attempt ends in the success alert or in the failure alert, and the flag
    is false when the invocation returns.  So an invocation from a machine
    that was not converting never returns with the busy flag up. *)
Theorem busy_flag_restored (w : World) (m : Machine) :
  (selectedFile (react m) = None ->
   convertToPDF w m =
     (inr tt, record m [Alert "Error" "Please select a file first"]))
  /\ (forall f, selectedFile (react m) = Some f ->
      fst (convertToPDF w m) = inr tt /\
      isConverting (react (raised m)) = true /\
      convertToPDF w m =
        tryCatchFinally (conversionAttempt w f) conversionFailed
                        (setIsConverting false) (raised m) /\
      isConverting (react (snd (conversionAttempt w f (raised m)))) = true /\
      (forall e m2,
          conversionAttempt w f (raised m) = (inl e, m2) ->
          isConverting (react (snd (conversionFailed e m2))) = true) /\
      isConverting (react (snd (convertToPDF w m))) = false /\
      exists between outcome,
        trace (snd (convertToPDF w m)) =
          trace m ++ SetIsConverting true :: between ++
                     [outcome; SetIsConverting false] /\
        Forall (fun e => forall b, e <> SetIsConverting b) between /\
        (outcome = successAlert \/ exists e, outcome = failureAlert e))
  /\ (isConverting (react m) = false ->
      isConverting (react (snd (convertToPDF w m))) = false).
Proof.
  assert (Hnone : selectedFile (react m) = None ->
                  convertToPDF w m =
                  (inr tt, record m [Alert "Error" "Please select a file first"])).
  { intros H. unfold convertToPDF. now rewrite H. }
  assert (Hdown : forall f, selectedFile (react m) = Some f ->
      fst (convertToPDF w m) = inr tt /\
      isConverting (react (snd (convertToPDF w m))) = false /\
      exists between outcome,
        trace (snd (convertToPDF w m)) =
          trace m ++ SetIsConverting true :: between ++
                     [outcome; SetIsConverting false] /\
        Forall (fun e => forall b, e <> SetIsConverting b) between /\
        (outcome = successAlert \/ exists e, outcome = failureAlert e)).
  { intros f Hsel.
    destruct (convertToPDF_run w m f Hsel) as (r & calls & Hstop & Hr).
    destruct Hstop as (Hcalls & _ & _).
    assert (Hquiet : Forall (fun e => forall b, e <> SetIsConverting b) calls).
    { eapply Forall_impl; [|exact Hcalls].
      intros e He b ->. discriminate He. }
    destruct r as [e|[]].
    - destruct Hr as [Hrun _]. rewrite Hrun.
      split; [reflexivity|]. split; [reflexivity|].
      exists (calls ++ [ConsoleLog e]), (failureAlert e).
      split; [cbn; now rewrite <- app_assoc|]. split.
      + apply Forall_app. split; [exact Hquiet|].
        constructor; [discriminate|constructor].
      + right. now exists e.
    - destruct Hr as (doc & pdfBytes & data & built & Hrun & _).
      rewrite Hrun. split; [reflexivity|]. split; [reflexivity|].
      exists (calls ++ [SetDownloadUrl (pdfUriOf w f)]), successAlert.
      split; [cbn; now rewrite <- app_assoc|]. split.
      + apply Forall_app. split; [exact Hquiet|].
        constructor; [discriminate|constructor].
      + now left. }
  split; [exact Hnone|]. split.
  - intros f Hsel. destruct (Hdown f Hsel) as (Hret & Hfalse & Htrace).
    assert (Hup : isConverting (react (snd (conversionAttempt w f (raised m))))
                  = true)
      by (rewrite conversionAttempt_keeps_flag; reflexivity).
    split; [exact Hret|]. split; [reflexivity|]. split.
    { unfold convertToPDF. rewrite Hsel. reflexivity. }
    split; [exact Hup|]. split; [|split; [exact Hfalse|exact Htrace]].
    intros e m2 Hrun. rewrite Hrun in Hup. exact Hup.
  - intros Hidle. destruct (selectedFile (react m)) as [f|] eqn:Hsel.
    + now destruct (Hdown f eq_refl) as (_ & H & _).
    + rewrite (Hnone eq_refl). exact Hidle.
Qed.

(* ------------------------------------------------------------------ *)
(** ** Pages of the built document *)

Lemma appendOp_length (ps : list PageCanvas) (page : PageRef)
      (op : DrawOperation) :
  length (appendOp ps page op) = length ps.
Proof.
  revert page. induction ps as [|p ps IH]; intros [|i]; cbn; auto.
Qed.

Lemma drawText_length doc page content o doc' :
  drawText doc page content o = inr doc' ->
  length (pages doc') = length (pages doc).
Proof.
  unfold drawText. destruct (optSize o <=? 0)%Z; [discriminate|].
  intros H. injection H as <-. cbn. apply appendOp_length.
Qed.

Lemma layoutLine_grows (c c' : Cursor) (line : string) :
  layoutLine c line = inr c' ->
  (length (pages (curDoc c)) <= length (pages (curDoc c')))%nat.
Proof.
  unfold layoutLine, bindR.
  destruct (yPosition c <? 50)%Z.
  - cbn [addPage curDoc curPage yPosition].
    destruct (drawText _ _ _ _) as [e|d] eqn:Hdraw; [discriminate|].
    intros H. injection H as <-. cbn [curDoc].
    apply drawText_length in Hdraw. rewrite Hdraw. cbn.
    rewrite length_app. lia.
  - destruct (drawText _ _ _ _) as [e|d] eqn:Hdraw; [discriminate|].
    intros H. injection H as <-. cbn [curDoc].
    apply drawText_length in Hdraw. lia.
Qed.

Lemma layoutLines_grows (lines : list string) :
  forall c c',
    layoutLines lines c = inr c' ->
    (length (pages (curDoc c)) <= length (pages (curDoc c')))%nat.
Proof.
  induction lines as [|line rest IH]; intros c c'; cbn [layoutLines].
  - intros H. injection H as <-. lia.
  - unfold bindR. destruct (layoutLine c line) as [e|c1] eqn:Hline; [discriminate|].
    intros H. apply layoutLine_grows in Hline. apply IH in H. lia.
Qed.

(** Whatever document and page a strategy is given, it only adds pages. *)
Lemma strategies_only_add_pages (s : Strategy) (w : World) (f : SelectedFile)
      (doc0 : Document) (page : PageRef) (m0 : Machine)
      (doc1 : Document) (m1 : Machine) :
  runStrategy s w f doc0 page m0 = (inr doc1, m1) ->
  (length (pages doc0) <= length (pages doc1))%nat.
Proof.
  destruct s; cbn [runStrategy].
  - unfold textStrategy, call, bind, emit, lift, ret.
    destruct (readAsStringAsync w (uri f)); cbn; [discriminate|].
    destruct (layoutLines _ _) as [e|c] eqn:Hloop; [discriminate|].
    intros H. injection H as <- _. now apply layoutLines_grows in Hloop.
  - unfold imageStrategy, embedPng, embedJpg, call, bind, emit, lift, ret.
    destruct (readAsBase64Async w (uri f)) as [|data]; cbn; [discriminate|].
    destruct (atob w data) as [|binary]; cbn; [discriminate|].
    destruct (mimeIs (mimeType f) "image/png"); cbn.
    + destruct (decodePng w _) as [|[wd ht]]; cbn; [discriminate|].
      intros H. injection H as <- _. cbn. now rewrite appendOp_length.
    + destruct (decodeJpg w _) as [|[wd ht]]; cbn; [discriminate|].
      intros H. injection H as <- _. cbn. now rewrite appendOp_length.
  - unfold fallbackStrategy, call, bind, emit, lift.
    destruct (getInfoAsync w (uri f)) as [|info]; cbn; [discriminate|].
    intros H. injection H as <- _. cbn. now rewrite !appendOp_length.
Qed.

(** C6: the document [buildDocument] hands to serialization has at least
    one page: the title page is added before the strategy is chosen and the
    strategy only adds pages.  So [serialize] never takes its zero-page
    branch on it, and answers what the encoder answers. *)
Theorem serialized_document_has_a_page (w : World) (f : SelectedFile)
        (m : Machine) (doc : Document) (m' : Machine) :
  buildDocument w f m = (inr doc, m') ->
  (1 <= length (pages doc))%nat /\ serialize w doc = encodePdf w doc.
Proof.
  intros Hbuild.
  assert (Hlen : (1 <= length (pages doc))%nat).
  { rewrite buildDocument_dispatch in Hbuild.
    change 1%nat with (length (pages (titledDoc f))).
    destruct (mimeStartsWith (mimeType f) "text/");
      [|destruct (mimeStartsWith (mimeType f) "image/")].
    - exact (strategies_only_add_pages TextLayout _ _ _ _ _ _ _ Hbuild).
    - exact (strategies_only_add_pages ImageEmbedding _ _ _ _ _ _ _ Hbuild).
    - exact (strategies_only_add_pages MetadataFallback _ _ _ _ _ _ _ Hbuild). }
  split; [exact Hlen|].
  unfold serialize. destruct (pages doc); [cbn in Hlen; lia|reflexivity].
Qed.

(** The theorem at a PNG file that decodes. *)
Lemma serialized_document_has_a_page_witness :
  exists doc m',
    buildDocument rasterWorld pngFile (idle pngFile) = (inr doc, m') /\
    (1 <= length (pages doc))%nat /\
    serialize rasterWorld doc = encodePdf rasterWorld doc.
Proof.
  eexists. eexists. split; [vm_compute; reflexivity|].
  eapply (serialized_document_has_a_page rasterWorld pngFile (idle pngFile)).
  vm_compute. reflexivity.
Defined.

(** C8: whichever strategy ran, the first page of the built document is the
    A4 page that starts with the title, the text Converted from: and the
    display name, at (50, 800) in size 18; the title operation is drawn
    nowhere else, neither further down the first page nor on a later
    page. *)
Theorem title_on_first_page_only (w : World) (f : SelectedFile) (m : Machine)
        (doc : Document) (m' : Machine) :
  buildDocument w f m = (inr doc, m') ->
  exists rest more,
    pages doc =
      mkPage 595 842
             (Text ("Converted from: " +++ name f) 50 800 18 None black :: rest)
        :: more /\
    ~ In (titleOp f) rest /\
    forall p, In p more -> ~ In (titleOp f) (ops p).
Proof.
  intros Hbuild.
  destruct (buildDocument_run w f m) as (r & calls & Hrun & _ & _ & Hr).
  rewrite Hbuild in Hrun. injection Hrun as <- _.
  destruct Hr as (rest & more & Hpages & Hrest & Hmore).
  exists rest, more. split; [exact Hpages|]. split.
  - rewrite Forall_forall in Hrest. intros Hin. now apply (Hrest _ Hin).
  - intros p Hp Hin. rewrite Forall_forall in Hmore.
    specialize (Hmore p Hp). rewrite Forall_forall in Hmore.
    now apply (isLine_not_title f _ (Hmore _ Hin)).
Qed.

(** The theorem at a text of 52 lines, which takes two pages. *)
Lemma title_on_first_page_only_witness :
  exists doc m' rest more,
    buildDocument (textWorld (shortLines 52)) notesFile (idle notesFile)
      = (inr doc, m') /\
    pages doc =
      mkPage 595 842
        (Text "Converted from: notes.txt" 50 800 18 None black :: rest)
        :: more /\
    length more = 1%nat /\
    ~ In (titleOp notesFile) rest /\
    forall p, In p more -> ~ In (titleOp notesFile) (ops p).
Proof.
  eexists. eexists.
  assert (Hbuild : buildDocument (textWorld (shortLines 52)) notesFile
                                 (idle notesFile)
                   = (inr ?[doc], ?[m'])) by (vm_compute; reflexivity).
  destruct (title_on_first_page_only _ _ _ _ _ Hbuild)
    as (rest & more & Hpages & Hrest & Hmore).
  exists rest, more. split; [exact Hbuild|]. split; [exact Hpages|].
  split; [|split; [exact Hrest|exact Hmore]].
  cbn [pages] in Hpages. injection Hpages as _ <-. reflexivity.
Defined.

(* ------------------------------------------------------------------ *)
(** ** Images *)

Lemma image_type_is_not_text (mime : option string) :
  mimeStartsWith mime "image/" = true -> mimeStartsWith mime "text/" = false.
Proof.
  destruct mime as [s|]; cbn; [|discriminate].
  unfold Str.startsWith. intros H. apply prefix_append in H.
  destruct H as [rest ->]. reflexivity.
Qed.

(** The image strategy when the payload is read, decoded from base 64 and
    accepted by the decoder its declared type selects. *)
Lemma imageStrategy_embeds (w : World) (f : SelectedFile) (m : Machine)
      (imageData binary : string) (wd ht : Z) :
  readAsBase64Async w (uri f) = Returns imageData ->
  atob w imageData = Returns binary ->
  decoderFor w f (list_byte_of_string binary) = Returns (wd, ht) ->
  imageStrategy w f (titledDoc f) 0%nat m =
    (inr (mkDoc [mkPage 595 842
                   [titleOp f;
                    Image (mkImage (formatFor f) wd ht) 50 400
                          (inject_Z wd * (1 # 2))%Q (inject_Z ht * (1 # 2))%Q]]
                [mkImage (formatFor f) wd ht]),
     record m [ReadBase64 (uri f); DecodeBase64 imageData;
               (if mimeIs (mimeType f) "image/png"
                then EmbedPng (list_byte_of_string binary)
                else EmbedJpg (list_byte_of_string binary))]).
Proof.
  intros Hread Hatob Hdec.
  unfold imageStrategy, embedPng, embedJpg, call, bind, emit, lift, ret.
  rewrite Hread. cbn. rewrite Hatob. cbn.
  unfold decoderFor, formatFor in *.
  destruct (mimeIs (mimeType f) "image/png"); cbn; rewrite Hdec; cbn;
    unfold record; cbn; now rewrite <- !app_assoc.
Qed.

(** C7: an image file whose payload is read, decoded from base 64 and
    accepted by the decoder is built into a one-page document whose only
    Image operation is drawn at (50, 400), after the title, with a width and
    a height that are half the intrinsic width and height of the embedded
    image. *)
Theorem image_drawn_once_at_half_size (w : World) (f : SelectedFile)
        (m : Machine) (imageData binary : string) (wd ht : Z) :
  mimeStartsWith (mimeType f) "image/" = true ->
  readAsBase64Async w (uri f) = Returns imageData ->
  atob w imageData = Returns binary ->
  decoderFor w f (list_byte_of_string binary) = Returns (wd, ht) ->
  exists doc m' img width height,
    buildDocument w f m = (inr doc, m') /\
    pages doc = [mkPage 595 842 [titleOp f; Image img 50 400 width height]] /\
    imageOps doc = [Image img 50 400 width height] /\
    images doc = [img] /\
    intrinsicWidth img = wd /\ intrinsicHeight img = ht /\
    (width == inject_Z (intrinsicWidth img) / 2)%Q /\
    (height == inject_Z (intrinsicHeight img) / 2)%Q.
Proof.
  intros Himage Hread Hatob Hdec.
  eexists _, _, (mkImage (formatFor f) wd ht), _, _.
  rewrite buildDocument_dispatch, (image_type_is_not_text _ Himage), Himage.
  split; [exact (imageStrategy_embeds w f m _ _ _ _ Hread Hatob Hdec)|].
  cbn [pages images intrinsicWidth intrinsicHeight].
  repeat split; reflexivity || (unfold Qdiv; reflexivity) || idtac.
Qed.

(** The theorem at a PNG of 640 by 480 and at a JPEG of 801 by 600, drawn
    320 by 240 and 400.5 by 300. *)
Lemma image_drawn_once_at_half_size_witness :
  (exists doc m' img width height,
      buildDocument rasterWorld pngFile (idle pngFile) = (inr doc, m') /\
      pages doc = [mkPage 595 842 [titleOp pngFile; Image img 50 400 width height]] /\
      imageOps doc = [Image img 50 400 width height] /\
      images doc = [img] /\
      intrinsicWidth img = 640%Z /\ intrinsicHeight img = 480%Z /\
      (width == inject_Z (intrinsicWidth img) / 2)%Q /\
      (height == inject_Z (intrinsicHeight img) / 2)%Q)
  /\
  (exists doc m' img width height,
      buildDocument rasterWorld jpegFile (idle jpegFile) = (inr doc, m') /\
      pages doc = [mkPage 595 842 [titleOp jpegFile; Image img 50 400 width height]] /\
      imageOps doc = [Image img 50 400 width height] /\
      images doc = [img] /\
      intrinsicWidth img = 801%Z /\ intrinsicHeight img = 600%Z /\
      (width == inject_Z (intrinsicWidth img) / 2)%Q /\
      (height == inject_Z (intrinsicHeight img) / 2)%Q).
Proof.
  split.
  - exact (image_drawn_once_at_half_size rasterWorld pngFile (idle pngFile)
             "iVBORw0KGgo=" "iVBORw0KGgo=" 640 480
             eq_refl eq_refl eq_refl eq_refl).
  - exact (image_drawn_once_at_half_size rasterWorld jpegFile (idle jpegFile)
             "iVBORw0KGgo=" "iVBORw0KGgo=" 801 600
             eq_refl eq_refl eq_refl eq_refl).
Defined.

(** C2 (amended): an image declared image/gif is taken for a JPEG: its
    bytes go to the JPEG decoder.  When the decoder rejects them the
    attempt fails with CorruptImageData after that call; when it accepts
    them the document is built with the image embedded as a JPEG; and no
    attempt fails with UnsupportedImageFormat. *)
Theorem gif_is_embedded_as_jpeg (w : World) (f : SelectedFile) (m : Machine)
        (imageData binary : string) :
  mimeType f = Some "image/gif" ->
  readAsBase64Async w (uri f) = Returns imageData ->
  atob w imageData = Returns binary ->
  (forall msg,
      decodeJpg w (list_byte_of_string binary) = Throws msg ->
      conversionAttempt w f m =
        (inl (mkExn CorruptImageData msg),
         record m [ReadBase64 (uri f); DecodeBase64 imageData;
                   EmbedJpg (list_byte_of_string binary)]))
  /\ (forall wd ht,
         decodeJpg w (list_byte_of_string binary) = Returns (wd, ht) ->
         exists doc m',
           buildDocument w f m = (inr doc, m') /\
           images doc = [mkImage JPEG wd ht] /\
           imageOps doc =
             [Image (mkImage JPEG wd ht) 50 400
                    (inject_Z wd * (1 # 2))%Q (inject_Z ht * (1 # 2))%Q])
  /\ (forall e m',
         conversionAttempt w f m = (inl e, m') ->
         kind e <> UnsupportedImageFormat).
Proof.
  intros Hmime Hread Hatob. split; [|split].
  - intros msg Hdec.
    unfold conversionAttempt, bind. rewrite buildDocument_dispatch, Hmime.
    cbn [mimeStartsWith Str.startsWith String.prefix].
    change (String.prefix "text/" "image/gif") with false.
    change (String.prefix "image/" "image/gif") with true. cbv iota.
    unfold imageStrategy, embedPng, embedJpg, call, bind, emit, lift, ret.
    rewrite Hread. cbn. rewrite Hatob. cbn. rewrite Hmime. cbn.
    rewrite Hdec. cbn. unfold record. now rewrite <- !app_assoc.
  - intros wd ht Hdec.
    eexists _, _. rewrite buildDocument_dispatch, Hmime.
    change (mimeStartsWith (Some "image/gif") "text/") with false.
    change (mimeStartsWith (Some "image/gif") "image/") with true. cbv iota.
    split.
    + apply (imageStrategy_embeds w f m imageData binary wd ht Hread Hatob).
      unfold decoderFor. now rewrite Hmime.
    + unfold formatFor. rewrite Hmime. split; reflexivity.
  - intros e m' Hrun.
    destruct (conversionAttempt_run w f m) as (r & calls & _ & Hr).
    destruct r as [e0|[]].
    + destruct Hr as [Hrun0 Hkind]. rewrite Hrun in Hrun0.
      injection Hrun0 as -> _. intros Hbad. rewrite Hbad in Hkind.
      discriminate Hkind.
    + destruct Hr as (doc & pdfBytes & data & built & Hrun0 & _).
      rewrite Hrun in Hrun0. discriminate Hrun0.
Qed.

(** The theorem at a GIF in a world whose JPEG decoder rejects it. *)
Lemma gif_is_embedded_as_jpeg_witness :
  conversionAttempt (textWorld "R0lGODlh") gifFile (idle gifFile) =
    (inl (mkExn CorruptImageData (Some "SOI not found in JPEG")),
     record (idle gifFile)
            [ReadBase64 (uri gifFile); DecodeBase64 "R0lGODlh";
             EmbedJpg (list_byte_of_string "R0lGODlh")]).
Proof.
  exact (proj1 (gif_is_embedded_as_jpeg (textWorld "R0lGODlh") gifFile
                  (idle gifFile) "R0lGODlh" "R0lGODlh"
                  eq_refl eq_refl eq_refl)
               (Some "SOI not found in JPEG") eq_refl).
Defined.

(** C2 as stated fails: the attempt on a GIF that the JPEG decoder rejects
    fails with CorruptImageData, which is not UnsupportedImageFormat, and
    the attempt on a file declared image/gif whose bytes the JPEG decoder
    accepts does not fail at all. *)
Lemma gif_unsupported_counterexample :
  fst (conversionAttempt (textWorld "R0lGODlh") gifFile (idle gifFile)) =
    inl (mkExn CorruptImageData (Some "SOI not found in JPEG"))
  /\ CorruptImageData <> UnsupportedImageFormat
  /\ fst (conversionAttempt rasterWorld gifFile (idle gifFile)) = inr tt.
Proof.
  split; [vm_compute; reflexivity|]. split; [discriminate|].
  vm_compute; reflexivity.
Qed.

(* ------------------------------------------------------------------ *)
(** ** The destination path *)

Lemma append_assoc3 (a b c : string) : (a +++ b) +++ c = a +++ b +++ c.
Proof. induction a as [|x a IH]; cbn; [reflexivity|now rewrite IH]. Qed.

Lemma extensionChars_spec (s : string) :
  extensionChars s = true <->
  forall c, In c (list_ascii_of_string s) -> c <> "."%char /\ c <> "/"%char.
Proof.
  induction s as [|a s IH]; cbn.
  - split; [intros _ c []|reflexivity].
  - rewrite !andb_true_iff, !negb_true_iff, IH, !Ascii.eqb_neq.
    split.
    + intros [[Hslash Hdot] Hrest] c [<-|Hin]; auto.
    + intros H. split; [split; apply H; now left|].
      intros c Hin. apply H. now right.
Qed.

Lemma extensionChars_dot (a b : string) :
  extensionChars (a +++ "." +++ b) = false.
Proof.
  induction a as [|c a IH]; cbn.
  - reflexivity.
  - cbn in IH. rewrite IH. apply andb_false_r.
Qed.

Lemma removeExtension_eq (s : string) :
  removeExtension s =
  if isExtension s then EmptyString
  else match s with
       | EmptyString => EmptyString
       | String c rest => String c (removeExtension rest)
       end.
Proof. destruct s; reflexivity. Qed.

Lemma removeExtension_strips (stem ext : string) :
  ext <> "" -> extensionChars ext = true ->
  removeExtension (stem +++ "." +++ ext) = stem.
Proof.
  intros Hne Hchars. induction stem as [|c stem IH].
  - destruct ext as [|d ext]; [congruence|].
    cbn [String.append]. rewrite removeExtension_eq.
    cbn [isExtension]. rewrite Hchars. reflexivity.
  - change ((String c stem) +++ "." +++ ext)
      with (String c (stem +++ "." +++ ext)).
    rewrite removeExtension_eq.
    assert (Hno : isExtension (String c (stem +++ "." +++ ext)) = false).
    { unfold isExtension. destruct (stem +++ "." +++ ext) eqn:Heq; [reflexivity|].
      rewrite <- Heq, extensionChars_dot. apply andb_false_r. }
    rewrite Hno. f_equal. exact IH.
Qed.

Lemma isExtension_inv (s : string) :
  isExtension s = true ->
  exists ext, s = "" +++ "." +++ ext /\ ext <> "" /\ extensionChars ext = true.
Proof.
  destruct s as [|c [|d rest]]; cbn; try discriminate.
  rewrite andb_true_iff, Ascii.eqb_eq. intros [-> H].
  exists (String d rest). repeat split; [discriminate|exact H].
Qed.

Lemma removeExtension_unchanged (s : string) :
  (forall stem ext,
      s = stem +++ "." +++ ext -> ext = "" \/ extensionChars ext = false) ->
  removeExtension s = s.
Proof.
  induction s as [|c s IH]; intros Hnone.
  - reflexivity.
  - rewrite removeExtension_eq.
    destruct (isExtension (String c s)) eqn:Hext.
    + apply isExtension_inv in Hext. destruct Hext as (ext & Heq & Hne & Hchars).
      destruct (Hnone "" ext Heq); congruence.
    + f_equal. apply IH. intros stem ext ->.
      apply (Hnone (String c stem) ext). reflexivity.
Qed.


(** C9: the path under which [convertToPDF] persists the PDF is a function
    of the documents directory and the display name alone: the directory,
    the display name without its extension, and .pdf; with the directory
    given as the documents root followed by a slash, that is the root, a
    slash, the name without its extension, and .pdf.  The extension is what
    follows the last dot of the name when that is not empty and holds no
    slash; it is removed together with its dot, and a name with no such
    extension is left as it is.  Nothing else is written by an
    invocation. *)
Theorem pdf_path_from_display_name (w : World) (m : Machine) (f : SelectedFile) :
  pdfUriOf w f =
    templateOfNullable (documentDirectory w) +++ removeExtension (name f) +++ ".pdf"
  /\ (forall documentsRoot,
         documentDirectory w = Some (documentsRoot +++ "/") ->
         pdfUriOf w f =
           documentsRoot +++ "/" +++ removeExtension (name f) +++ ".pdf")
  /\ (forall g, name g = name f -> pdfUriOf w g = pdfUriOf w f)
  /\ (forall stem ext,
         extensionOf (name f) stem ext -> removeExtension (name f) = stem)
  /\ ((forall stem ext, ~ extensionOf (name f) stem ext) ->
      removeExtension (name f) = name f)
  /\ (selectedFile (react m) = Some f ->
      disk (snd (convertToPDF w m)) = disk m \/
      exists data,
        disk (snd (convertToPDF w m)) = (pdfUriOf w f, data) :: disk m).
Proof.
  split; [reflexivity|]. split; [|split; [|split; [|split]]].
  - intros documentsRoot Hdir. unfold pdfUriOf. rewrite Hdir.
    cbn [templateOfNullable]. apply append_assoc3.
  - intros g Hname. unfold pdfUriOf. now rewrite Hname.
  - intros stem ext (Heq & Hne & Hchars). rewrite Heq.
    apply removeExtension_strips; [exact Hne|].
    now apply extensionChars_spec.
  - intros Hnone. apply removeExtension_unchanged.
    intros stem ext Heq.
    destruct ext as [|d ext]; [now left|]. right.
    destruct (extensionChars (String d ext)) eqn:Hchars; [|reflexivity].
    exfalso. apply (Hnone stem (String d ext)).
    split; [exact Heq|]. split; [discriminate|].
    now apply extensionChars_spec.
  - intros Hsel.
    destruct (convertToPDF_run w m f Hsel) as (r & calls & _ & Hr).
    destruct r as [e|[]].
    + destruct Hr as [Hrun _]. rewrite Hrun. now left.
    + destruct Hr as (doc & pdfBytes & data & built & Hrun & _).
      rewrite Hrun. right. now exists data.
Qed.

(** The theorem at notes.txt under file:///documents/. *)
Lemma pdf_path_from_display_name_witness :
  pdfUriOf (textWorld "") notesFile = "file:///documents/notes.pdf"
  /\ disk (snd (convertToPDF (textWorld "") (idle notesFile))) =
     [("file:///documents/notes.pdf", "")].
Proof.
  pose proof (pdf_path_from_display_name (textWorld "") (idle notesFile)
                notesFile) as (_ & Hroot & _ & Hext & _ & Hdisk).
  assert (Hpath : pdfUriOf (textWorld "") notesFile
                  = "file:///documents/notes.pdf").
  { rewrite (Hroot "file:///documents" eq_refl).
    rewrite (Hext "notes" "txt"); [reflexivity|].
    split; [reflexivity|]. split; [discriminate|].
    intros c [<-|[<-|[<-|[]]]]; split; discriminate. }
  split; [exact Hpath|].
  destruct (Hdisk eq_refl) as [Hsame|[data Hwritten]].
  - exfalso. revert Hsame. vm_compute. discriminate.
  - rewrite Hwritten, Hpath. f_equal. f_equal.
    revert Hwritten. vm_compute. intros H. now injection H.
Defined.

(* ------------------------------------------------------------------ *)
(** ** The size in KB *)

Lemma nearest_kb (s : N) :
  Num.nearest (inject_Z (Z.of_N s) / 1024)%Q 2 = ((100 * s + 512) / 1024)%N.
Proof.
  unfold Num.nearest, Qfloor, Qdiv, Qmult, Qplus, Qinv, inject_Z.
  cbn [Qnum Qden Z.of_nat Pos.of_succ_nat Pos.succ Z.pow Z.pow_pos Pos.iter Z.mul Pos.mul Pos.add].
  replace (Z.of_N s * 1 * 100 * 2 + 1024)%Z
    with (2 * (100 * Z.of_N s + 512))%Z by lia.
  replace 2048%Z with (2 * 1024)%Z by reflexivity.
  rewrite Z.div_mul_cancel_l by lia.
  change 1024%Z with (Z.of_N 1024). change 512%Z with (Z.of_N 512).
  change 100%Z with (Z.of_N 100).
  rewrite <- N2Z.inj_mul, <- N2Z.inj_add, <- N2Z.inj_div.
  apply N2Z.id.
Qed.

Lemma length_append (a b : string) :
  String.length (a +++ b) = (String.length a + String.length b)%nat.
Proof. induction a; cbn; auto. Qed.

Lemma length_zeros k : String.length (Num.zeros k) = k.
Proof. induction k; cbn; auto. Qed.

Lemma substring_all (s : string) : substring 0 (String.length s) s = s.
Proof. induction s as [|c s IH]; cbn; [reflexivity|now rewrite IH]. Qed.

Lemma substring_split (s : string) : forall j, (j <= String.length s)%nat ->
  substring 0 j s +++ substring j (String.length s - j) s = s.
Proof.
  induction s as [|c s IH]; intros j Hj.
  - destruct j; reflexivity.
  - destruct j as [|j].
    + rewrite Nat.sub_0_r.
      change (substring 0 0 (String c s)) with EmptyString.
      cbn [String.append]. apply substring_all.
    + cbn [String.length] in *. cbn. f_equal. apply IH. lia.
Qed.

Lemma length_substring (s : string) : forall j n, (j + n <= String.length s)%nat ->
  String.length (substring j n s) = n.
Proof.
  induction s as [|c s IH]; intros j n H; cbn [String.length] in H.
  - assert (j = 0 /\ n = 0)%nat as [-> ->] by lia. reflexivity.
  - destruct j as [|j]; destruct n as [|n]; cbn [substring String.length].
    + reflexivity.
    + f_equal. apply (IH 0%nat). lia.
    + apply IH. lia.
    + apply IH. lia.
Qed.

Lemma readDigits_digits n : readDigits (Num.digits n) = Some n.
Proof.
  unfold readDigits, Num.digits. rewrite NilEmpty.usu. cbn.
  now rewrite DecimalN.Unsigned.of_to.
Qed.

Lemma readDigits_zeros k s : readDigits (Num.zeros k +++ s) = readDigits s.
Proof.
  induction k as [|k IH]; [reflexivity|].
  rewrite <- IH. unfold readDigits.
  cbn [Num.zeros String.append NilEmpty.uint_of_string].
  destruct (NilEmpty.uint_of_string (Num.zeros k +++ s)); reflexivity.
Qed.

Lemma toFixed2_shape (x : Q) :
  Qle_bool 0 x = true ->
  exists a b,
    Num.toFixed x 2 = a +++ "." +++ b /\
    String.length b = 2%nat /\
    (1 <= String.length a)%nat /\
    readDigits (a +++ b) = Some (Num.nearest x 2).
Proof.
  intros Hx. unfold Num.toFixed. rewrite Hx. cbn [negb].
  set (m := Num.digits (Num.nearest x 2)).
  fold (padTo3 m).
  assert (Hlen : (3 <= String.length (padTo3 m))%nat).
  { unfold padTo3. destruct (Nat.leb_spec (String.length m) 2).
    - rewrite length_append, length_zeros. lia.
    - lia. }
  assert (Hread : readDigits (padTo3 m) = Some (Num.nearest x 2)).
  { unfold padTo3. destruct (String.length m <=? 2)%nat.
    - rewrite readDigits_zeros. apply readDigits_digits.
    - apply readDigits_digits. }
  set (p := padTo3 m) in *.
  exists (substring 0 (String.length p - 2) p), (substring (String.length p - 2) 2 p).
  split; [reflexivity|]. split; [apply length_substring; lia|].
  split; [rewrite length_substring; lia|].
  pose proof (substring_split p (String.length p - 2)) as Hsplit.
  replace (String.length p - (String.length p - 2))%nat with 2%nat in Hsplit
    by lia.
  rewrite Hsplit by lia. exact Hread.
Qed.


(* ------------------------------------------------------------------ *)
(** ** The metadata fallback *)

Lemma append_empty_r (s : string) : s +++ "" = s.
Proof. induction s as [|c s IH]; cbn; [reflexivity|now rewrite IH]. Qed.

Lemma mimeOrUnknown_declared (t : string) :
  t <> "" -> mimeOrUnknown (Some t) = t.
Proof. destruct t; [congruence|reflexivity]. Qed.

(** The size line of a file that exists: the nearest hundredth of the size
    over 1024, the larger one on a tie, with two digits after the point. *)
Lemma sizeText_two_decimals (fileInfo : FileInfo) :
  fileExists fileInfo = true ->
  exists a b,
    sizeText fileInfo = (a +++ "." +++ b) +++ " KB" /\
    String.length b = 2%nat /\
    (1 <= String.length a)%nat /\
    readDigits (a +++ b) = Some ((100 * size fileInfo + 512) / 1024)%N.
Proof.
  intros Hex. unfold sizeText. rewrite Hex.
  destruct (toFixed2_shape (inject_Z (Z.of_N (size fileInfo)) / 1024)%Q)
    as (a & b & Hshape & Hb & Ha & Hread).
  - unfold Qle_bool, Qdiv, Qmult, Qinv, inject_Z. cbn.
    apply Z.leb_le. lia.
  - exists a, b. rewrite Hshape, <- nearest_kb. auto.
Qed.

(** C5: for a file that is neither text nor image and whose probe answers,
    the document is the title page with the header File Conversion Details
    at (50, 700) and one text block at (50, 650).  The block is four lines:
    the file name, the declared type (unknown when it is absent or empty),
    the size, and the time of conversion.  The size is unknown when the
    source does not exist, and otherwise the size over 1024 to two decimal
    places followed by KB.  For archive.zip of type application/zip and 2048
    bytes the block contains Size: 2.00 KB and Type: application/zip. *)
Theorem fallback_details (w : World) (f : SelectedFile) (m : Machine)
        (fileInfo : FileInfo) :
  mimeStartsWith (mimeType f) "text/" = false ->
  mimeStartsWith (mimeType f) "image/" = false ->
  getInfoAsync w (uri f) = Returns fileInfo ->
  exists block,
    buildDocument w f m =
      (inr (mkDoc [mkPage 595 842
                     [titleOp f;
                      Text "File Conversion Details" 50 700 16 None black;
                      Text block 50 650 12 None black]] []),
       record m [GetInfo (uri f)]) /\
    block =
      ("Original File: " +++ name f +++ String Str.LF "") +++
      ("Type: " +++ mimeOrUnknown (mimeType f) +++ String Str.LF "") +++
      ("Size: " +++ sizeText fileInfo +++ String Str.LF "") +++
      ("Converted on: " +++ toLocaleString w) /\
    Str.includes block ("Original File: " +++ name f) /\
    Str.includes block ("Converted on: " +++ toLocaleString w) /\
    (forall t, mimeType f = Some t -> t <> "" ->
               Str.includes block ("Type: " +++ t)) /\
    (mimeType f = None -> Str.includes block "Type: unknown") /\
    (fileExists fileInfo = false -> Str.includes block "Size: unknown") /\
    (fileExists fileInfo = true ->
     exists a b,
       Str.includes block ("Size: " +++ (a +++ "." +++ b) +++ " KB") /\
       String.length b = 2%nat /\
       (1 <= String.length a)%nat /\
       readDigits (a +++ b) = Some ((100 * size fileInfo + 512) / 1024)%N) /\
    (name f = "archive.zip" -> mimeType f = Some "application/zip" ->
     fileExists fileInfo = true -> size fileInfo = 2048%N ->
     Str.includes block "Size: 2.00 KB" /\
     Str.includes block "Type: application/zip").
Proof.
  intros Htext Himage Hinfo.
  exists (detailsText w f fileInfo).
  assert (Htype : Str.includes (detailsText w f fileInfo)
                    ("Type: " +++ mimeOrUnknown (mimeType f))).
  { exists ("Original File: " +++ name f +++ String Str.LF ""),
      (String Str.LF "" +++
       ("Size: " +++ sizeText fileInfo +++ String Str.LF "") +++
       ("Converted on: " +++ toLocaleString w)).
    unfold detailsText. now rewrite !append_assoc3. }
  assert (Hsize : Str.includes (detailsText w f fileInfo)
                    ("Size: " +++ sizeText fileInfo)).
  { exists (("Original File: " +++ name f +++ String Str.LF "") +++
            ("Type: " +++ mimeOrUnknown (mimeType f) +++ String Str.LF "")),
      (String Str.LF "" +++ ("Converted on: " +++ toLocaleString w)).
    unfold detailsText. now rewrite !append_assoc3. }
  split; [|split; [reflexivity|]].
  { rewrite buildDocument_dispatch, Htext, Himage.
    unfold fallbackStrategy, call, bind, emit, lift. rewrite Hinfo.
    reflexivity. }
  split; [|split; [|split; [|split; [|split; [|split]]]]].
  - exists "", (String Str.LF "" +++
                ("Type: " +++ mimeOrUnknown (mimeType f) +++ String Str.LF "") +++
                ("Size: " +++ sizeText fileInfo +++ String Str.LF "") +++
                ("Converted on: " +++ toLocaleString w)).
    unfold detailsText. now rewrite !append_assoc3.
  - exists (("Original File: " +++ name f +++ String Str.LF "") +++
            ("Type: " +++ mimeOrUnknown (mimeType f) +++ String Str.LF "") +++
            ("Size: " +++ sizeText fileInfo +++ String Str.LF "")), "".
    unfold detailsText. now rewrite !append_assoc3, append_empty_r.
  - intros t Hmime Hne. rewrite Hmime, (mimeOrUnknown_declared t Hne) in Htype.
    exact Htype.
  - intros Hmime. rewrite Hmime in Htype. exact Htype.
  - intros Hex. unfold sizeText in Hsize at 1. rewrite Hex in Hsize.
    exact Hsize.
  - intros Hex.
    destruct (sizeText_two_decimals fileInfo Hex) as (a & b & Hshape & Hb & Ha & Hread).
    exists a, b. rewrite <- Hshape. auto.
  - intros _ Hmime Hex Hsz. split.
    + replace "Size: 2.00 KB" with ("Size: " +++ sizeText fileInfo);
        [exact Hsize|].
      unfold sizeText. rewrite Hex, Hsz. vm_compute. reflexivity.
    + rewrite Hmime in Htype. exact Htype.
Qed.

(** The theorem at archive.zip, application/zip, 2048 bytes. *)
Lemma fallback_details_witness :
  exists block m',
    buildDocument (textWorld "") zipFile (idle zipFile) =
      (inr (mkDoc [mkPage 595 842
                     [titleOp zipFile;
                      Text "File Conversion Details" 50 700 16 None black;
                      Text block 50 650 12 None black]] []), m') /\
    Str.includes block "Size: 2.00 KB" /\
    Str.includes block "Type: application/zip".
Proof.
  destruct (fallback_details (textWorld "") zipFile (idle zipFile)
              (mkFileInfo true 2048) eq_refl eq_refl eq_refl)
    as (block & Hbuild & _ & _ & _ & _ & _ & _ & _ & Hzip).
  exists block, (record (idle zipFile) [GetInfo (uri zipFile)]).
  split; [exact Hbuild|].
  exact (Hzip eq_refl eq_refl eq_refl eq_refl).
Defined.

(* ------------------------------------------------------------------ *)
(** ** Splitting into lines *)

Lemma split_cons (c : ascii) (s : string) :
  Str.split Str.LF (String c s) =
  if Ascii.eqb c Str.LF then EmptyString :: Str.split Str.LF s
  else match Str.split Str.LF s with
       | piece :: pieces => String c piece :: pieces
       | [] => [String c EmptyString]
       end.
Proof. reflexivity. Qed.

Lemma joinLines_cons (l : string) (rest : list string) :
  rest <> [] ->
  Str.joinLines (l :: rest) = l +++ String Str.LF (Str.joinLines rest).
Proof. destruct rest; [congruence|reflexivity]. Qed.

Lemma split_not_nil (s : string) : Str.split Str.LF s <> [].
Proof.
  pose proof (split_nonempty Str.LF s) as H.
  destruct (Str.split Str.LF s); [cbn in H; lia|discriminate].
Qed.

Lemma joinLines_split (s : string) : Str.joinLines (Str.split Str.LF s) = s.
Proof.
  induction s as [|c s IH]; [reflexivity|].
  rewrite split_cons. destruct (Ascii.eqb_spec c Str.LF) as [->|Hc].
  - rewrite joinLines_cons by apply split_not_nil. now rewrite IH.
  - destruct (Str.split Str.LF s) as [|piece pieces] eqn:Hs.
    + now destruct (split_not_nil s).
    + destruct pieces as [|p ps].
      * cbn in IH |- *. now rewrite IH.
      * rewrite joinLines_cons by discriminate.
        rewrite joinLines_cons in IH by discriminate.
        cbn [String.append]. f_equal. exact IH.
Qed.

Lemma split_pieces_no_LF (s : string) : Forall hasNoLF (Str.split Str.LF s).
Proof.
  induction s as [|c s IH]; [repeat constructor|].
  rewrite split_cons. destruct (Ascii.eqb_spec c Str.LF) as [->|Hc].
  - constructor; [reflexivity|exact IH].
  - destruct (Str.split Str.LF s) as [|piece pieces].
    + constructor; [|constructor]. unfold hasNoLF. cbn.
      now destruct (Ascii.eqb_spec c Str.LF).
    + inversion IH as [|? ? Hpiece Hpieces]; subst.
      constructor; [|exact Hpieces]. unfold hasNoLF in *. cbn.
      now destruct (Ascii.eqb_spec c Str.LF).
Qed.

Lemma split_length (s : string) :
  length (Str.split Str.LF s) = S (countLF s).
Proof.
  induction s as [|c s IH]; [reflexivity|].
  rewrite split_cons. cbn [countLF].
  destruct (Ascii.eqb c Str.LF).
  - cbn. now rewrite IH.
  - destruct (Str.split Str.LF s); cbn in *; lia.
Qed.

Lemma split_no_LF (l : string) : hasNoLF l -> Str.split Str.LF l = [l].
Proof.
  unfold hasNoLF. induction l as [|c l IH]; [reflexivity|].
  rewrite split_cons. cbn [countLF].
  destruct (Ascii.eqb c Str.LF); [discriminate|].
  intros H. now rewrite (IH H).
Qed.

Lemma split_append_LF (l rest : string) :
  hasNoLF l ->
  Str.split Str.LF (l +++ String Str.LF rest) = l :: Str.split Str.LF rest.
Proof.
  unfold hasNoLF. induction l as [|c l IH].
  - intros _. cbn [String.append]. rewrite split_cons.
    now rewrite Ascii.eqb_refl.
  - cbn [String.append countLF]. rewrite split_cons.
    destruct (Ascii.eqb c Str.LF); [discriminate|].
    intros H. now rewrite (IH H).
Qed.

(** X1: splitting on line feeds loses nothing: the pieces joined by line
    feeds are the text again, no piece holds a line feed, and there is one
    piece more than there are line feeds (so the empty text is one empty
    line). *)
Theorem split_keeps_the_text (s : string) :
  Str.joinLines (Str.split Str.LF s) = s
  /\ Forall hasNoLF (Str.split Str.LF s)
  /\ length (Str.split Str.LF s) = S (countLF s).
Proof.
  split; [apply joinLines_split|].
  split; [apply split_pieces_no_LF|apply split_length].
Qed.

(** X2: a text made of lines that hold no line feed, joined by line feeds,
    splits into exactly these lines. *)
Theorem split_recovers_the_lines (ls : list string) :
  ls <> [] -> Forall hasNoLF ls ->
  Str.split Str.LF (Str.joinLines ls) = ls.
Proof.
  induction ls as [|l rest IH]; [congruence|].
  intros _ Hall. inversion Hall as [|? ? Hl Hrest]; subst.
  destruct rest as [|l' rest'].
  - cbn. now apply split_no_LF.
  - rewrite joinLines_cons by discriminate.
    rewrite split_append_LF by exact Hl.
    f_equal. apply IH; [discriminate|exact Hrest].
Qed.

(** The theorem at three lines, the second one empty. *)
Lemma split_recovers_the_lines_witness :
  Str.split Str.LF (Str.joinLines ["first"; ""; "third"])
  = ["first"; ""; "third"].
Proof.
  apply split_recovers_the_lines; [discriminate|].
  repeat constructor.
Defined.

(* ------------------------------------------------------------------ *)
(** ** The text of a text document *)

Lemma buildDocument_text_inv (w : World) (f : SelectedFile) (m m' : Machine)
      (doc : Document) :
  mimeStartsWith (mimeType f) "text/" = true ->
  buildDocument w f m = (inr doc, m') ->
  exists txt c',
    readAsStringAsync w (uri f) = Returns txt /\
    layoutLines (Str.split Str.LF txt) (mkCursor (titledDoc f) 0%nat 750) = inr c' /\
    doc = curDoc c'.
Proof.
  intros Hmime. rewrite buildDocument_dispatch, Hmime.
  unfold textStrategy, call, bind, emit, lift, ret.
  destruct (readAsStringAsync w (uri f)) as [msg|txt]; cbn; [discriminate|].
  destruct (layoutLines _ _) as [e|c'] eqn:Hloop; [discriminate|].
  intros H. injection H as <- _. now exists txt, c'.
Qed.

Lemma documentLines_snoc (ps : list PageCanvas) (p : PageCanvas)
      (imgs : list EmbeddedImage) :
  documentLines (mkDoc (ps ++ [p]) imgs) = flat_map pageLines ps ++ pageLines p.
Proof.
  unfold documentLines. cbn [pages]. rewrite flat_map_app. cbn.
  now rewrite app_nil_r.
Qed.

Lemma pageLines_snoc_line (wd ht : Z) (os : list DrawOperation)
      (line : string) (y : Z) :
  pageLines (mkPage wd ht (os ++ [lineOp line y])) =
  pageLines (mkPage wd ht os) ++ [line].
Proof.
  unfold pageLines. cbn [ops]. now rewrite filter_app, map_app.
Qed.

(** The loop draws the lines it is given, after what the document holds,
    in their order. *)
Lemma layoutLines_lines (lines : list string) :
  forall ps cur imgs y c',
    layoutLines lines (mkCursor (mkDoc (ps ++ [cur]) imgs) (length ps) y)
      = inr c' ->
    documentLines (curDoc c') =
    documentLines (mkDoc (ps ++ [cur]) imgs) ++ lines.
Proof.
  induction lines as [|line rest IH]; intros ps cur imgs y c'.
  - cbn. intros H. injection H as <-. cbn [curDoc]. now rewrite app_nil_r.
  - cbn [layoutLines]. destruct (Z.lt_ge_cases y 50) as [Hy|Hy].
    + rewrite layoutLine_new_page by exact Hy. cbn [bindR]. intros H.
      apply IH in H. rewrite H, !documentLines_snoc.
      rewrite flat_map_app. cbn [flat_map]. rewrite app_nil_r.
      rewrite <- !app_assoc. reflexivity.
    + rewrite layoutLine_same_page by exact Hy. cbn [bindR]. intros H.
      apply IH in H. rewrite H, !documentLines_snoc.
      destruct cur as [wd ht os]. cbn [pageWidth pageHeight ops].
      rewrite pageLines_snoc_line, <- !app_assoc. reflexivity.
Qed.

(** X3: the lines drawn on the pages of a text document, read page after
    page in drawing order, are exactly the lines of the payload: no line is
    lost, repeated or moved by a page break. *)
Theorem text_lines_are_kept_in_order (w : World) (f : SelectedFile)
        (m m' : Machine) (doc : Document) (txt : string) :
  mimeStartsWith (mimeType f) "text/" = true ->
  readAsStringAsync w (uri f) = Returns txt ->
  buildDocument w f m = (inr doc, m') ->
  documentLines doc = Str.split Str.LF txt.
Proof.
  intros Hmime Hread Hbuild.
  destruct (buildDocument_text_inv w f m m' doc Hmime Hbuild)
    as (txt' & c' & Hread' & Hloop & ->).
  rewrite Hread in Hread'. injection Hread' as <-.
  apply (layoutLines_lines _ [] (mkPage 595 842 [titleOp f]) [] 750) in Hloop.
  rewrite Hloop. reflexivity.
Qed.

(** The theorem at a text of three lines, the last one empty. *)
Lemma text_lines_are_kept_in_order_witness :
  exists doc m',
    buildDocument (textWorld threeLines) notesFile (idle notesFile)
      = (inr doc, m') /\
    documentLines doc = ["alpha"; "beta"; ""].
Proof.
  eexists. eexists.
  assert (Hbuild : buildDocument (textWorld threeLines) notesFile
                                 (idle notesFile)
                   = (inr ?[doc], ?[m'])) by (vm_compute; reflexivity).
  split; [exact Hbuild|].
  exact (text_lines_are_kept_in_order (textWorld threeLines) notesFile
           (idle notesFile) _ _ threeLines eq_refl eq_refl Hbuild).
Defined.

(* ------------------------------------------------------------------ *)
(** ** The heights of the lines *)

Lemma gridHeights_S (k : nat) :
  gridHeights (S k) = gridHeights k ++ [(750 - 14 * Z.of_nat k)%Z].
Proof. unfold gridHeights. now rewrite seq_S, map_app. Qed.

Lemma lineHeights_snoc_line (wd ht : Z) (os : list DrawOperation)
      (line : string) (y : Z) :
  lineHeights (mkPage wd ht (os ++ [lineOp line y])) =
  lineHeights (mkPage wd ht os) ++ [y].
Proof.
  unfold lineHeights. cbn [ops]. now rewrite filter_app, map_app.
Qed.

Lemma layoutLines_heights (lines : list string) :
  forall ps cur imgs k c',
    Forall onItsGrid ps -> onItsGrid cur -> linesOnPage cur = k ->
    layoutLines lines
      (mkCursor (mkDoc (ps ++ [cur]) imgs) (length ps)
                (750 - 14 * Z.of_nat k)) = inr c' ->
    Forall onItsGrid (pages (curDoc c')).
Proof.
  induction lines as [|line rest IH]; intros ps cur imgs k c' Hps Hcur Hk.
  - cbn. intros H. injection H as <-. cbn [curDoc pages].
    apply Forall_app. split; [exact Hps|]. now constructor.
  - cbn [layoutLines].
    destruct (Z.lt_ge_cases (750 - 14 * Z.of_nat k) 50) as [Hy|Hy].
    + rewrite layoutLine_new_page by exact Hy. cbn [bindR].
      apply (IH (ps ++ [cur]) (mkPage 595 842 [lineOp line 750]) imgs 1%nat);
        [|reflexivity|reflexivity].
      apply Forall_app. split; [exact Hps|]. now constructor.
    + rewrite layoutLine_same_page by exact Hy. cbn [bindR].
      replace (750 - 14 * Z.of_nat k - 14)%Z
        with (750 - 14 * Z.of_nat (S k))%Z by lia.
      apply IH; [exact Hps| |].
      * destruct cur as [wd ht os]. unfold onItsGrid in *.
        cbn [pageWidth pageHeight ops].
        rewrite lineHeights_snoc_line, linesOnPage_snoc_line, gridHeights_S.
        rewrite Hcur. cbn [pageWidth pageHeight ops] in Hk. now rewrite Hk.
      * destruct cur as [wd ht os]. cbn [pageWidth pageHeight ops].
        rewrite linesOnPage_snoc_line. now rewrite Hk.
Qed.

Lemma pageFill_bounded (n : nat) :
  forall k, (k <= 51)%nat -> Forall (fun c => (c <= 51)%nat) (pageFill k n).
Proof.
  induction n as [|n IH]; intros k Hk; cbn [pageFill].
  - now constructor.
  - destruct (Nat.leb_spec 51 k).
    + constructor; [exact Hk|]. apply IH. lia.
    + apply IH. lia.
Qed.

Lemma gridHeights_range (n : nat) (y : Z) :
  (n <= 51)%nat -> In y (gridHeights n) -> (50 <= y <= 750)%Z.
Proof.
  intros Hn Hin. unfold gridHeights in Hin. apply in_map_iff in Hin.
  destruct Hin as (j & <- & Hj). apply in_seq in Hj. lia.
Qed.

(** X4: on every page of a text document the lines are drawn on one grid:
    the first at height 750 and each next one 14 points lower; a page holds
    at most 51 of them, so no line is drawn below 50 or above 750. *)
Theorem text_lines_are_on_the_grid (w : World) (f : SelectedFile)
        (m m' : Machine) (doc : Document) (txt : string) :
  mimeStartsWith (mimeType f) "text/" = true ->
  readAsStringAsync w (uri f) = Returns txt ->
  buildDocument w f m = (inr doc, m') ->
  forall p, In p (pages doc) ->
    lineHeights p = gridHeights (linesOnPage p) /\
    (linesOnPage p <= 51)%nat /\
    forall y, In y (lineHeights p) -> (50 <= y <= 750)%Z.
Proof.
  intros Hmime Hread Hbuild p Hp.
  destruct (buildDocument_text_inv w f m m' doc Hmime Hbuild)
    as (txt' & c' & Hread' & Hloop & ->).
  assert (Hgrid : Forall onItsGrid (pages (curDoc c'))).
  { apply (layoutLines_heights (Str.split Str.LF txt') []
             (mkPage 595 842 [titleOp f]) [] 0%nat c');
      [constructor|reflexivity|reflexivity|exact Hloop]. }
  assert (Hmax : (linesOnPage p <= 51)%nat).
  { destruct (layoutLines_pages (Str.split Str.LF txt') []
                (mkPage 595 842 [titleOp f]) [] 0%nat)
      as (c'' & _ & _ & Hrun & _ & _ & _ & _ & Hcount);
      [reflexivity|lia|].
    assert (Hsame : @inr Exn Cursor c' = inr c'')
      by (rewrite <- Hloop; exact Hrun).
    injection Hsame as <-.
    pose proof (pageFill_bounded (length (Str.split Str.LF txt')) 0%nat
                  ltac:(lia)) as Hall.
    cbn [map app] in Hcount. rewrite <- Hcount in Hall.
    rewrite Forall_forall in Hall. apply Hall. now apply in_map. }
  rewrite Forall_forall in Hgrid. specialize (Hgrid p Hp).
  split; [exact Hgrid|]. split; [exact Hmax|].
  intros y Hy. rewrite Hgrid in Hy. now apply (gridHeights_range _ _ Hmax).
Qed.

(** The theorem at a text of 52 lines. *)
Lemma text_lines_are_on_the_grid_witness :
  exists doc m',
    buildDocument (textWorld (shortLines 52)) notesFile (idle notesFile)
      = (inr doc, m') /\
    forall p, In p (pages doc) ->
      lineHeights p = gridHeights (linesOnPage p) /\
      (linesOnPage p <= 51)%nat /\
      forall y, In y (lineHeights p) -> (50 <= y <= 750)%Z.
Proof.
  eexists. eexists.
  assert (Hbuild : buildDocument (textWorld (shortLines 52)) notesFile
                                 (idle notesFile)
                   = (inr ?[doc], ?[m'])) by (vm_compute; reflexivity).
  split; [exact Hbuild|].
  exact (text_lines_are_on_the_grid (textWorld (shortLines 52)) notesFile
           (idle notesFile) _ _ (shortLines 52) eq_refl eq_refl Hbuild).
Defined.

(* ------------------------------------------------------------------ *)
(** ** Page sizes and page counts *)

Lemma appendOp_A4 (ps : list PageCanvas) (page : PageRef) (op : DrawOperation) :
  Forall isA4 ps -> Forall isA4 (appendOp ps page op).
Proof.
  revert page. induction ps as [|p ps IH]; intros page Hall; [constructor|].
  inversion Hall as [|? ? Hp Hps]; subst.
  destruct page as [|i]; cbn [appendOp]; constructor; auto.
Qed.

Lemma drawText_A4 doc page content o doc' :
  drawText doc page content o = inr doc' ->
  Forall isA4 (pages doc) -> Forall isA4 (pages doc').
Proof.
  unfold drawText. destruct (optSize o <=? 0)%Z; [discriminate|].
  intros H Hall. injection H as <-. cbn [pages]. now apply appendOp_A4.
Qed.

Lemma layoutLine_A4 (c c' : Cursor) (line : string) :
  layoutLine c line = inr c' ->
  Forall isA4 (pages (curDoc c)) -> Forall isA4 (pages (curDoc c')).
Proof.
  unfold layoutLine, bindR. intros H Hall.
  destruct (yPosition c <? 50)%Z.
  - cbn [addPage curDoc curPage yPosition] in H.
    destruct (drawText _ _ _ _) as [e|d] eqn:Hdraw; [discriminate|].
    injection H as <-. cbn [curDoc].
    apply (drawText_A4 _ _ _ _ _ Hdraw). cbn [pages].
    apply Forall_app. split; [exact Hall|].
    constructor; [split; reflexivity|constructor].
  - destruct (drawText _ _ _ _) as [e|d] eqn:Hdraw; [discriminate|].
    injection H as <-. cbn [curDoc].
    now apply (drawText_A4 _ _ _ _ _ Hdraw).
Qed.

Lemma layoutLines_A4 (lines : list string) :
  forall c c',
    layoutLines lines c = inr c' ->
    Forall isA4 (pages (curDoc c)) -> Forall isA4 (pages (curDoc c')).
Proof.
  induction lines as [|line rest IH]; intros c c'; cbn [layoutLines].
  - intros H. now injection H as <-.
  - unfold bindR. destruct (layoutLine c line) as [e|c1] eqn:Hline; [discriminate|].
    intros H Hall. apply (IH _ _ H). now apply (layoutLine_A4 _ _ _ Hline).
Qed.

(** Whatever they are given, the strategies add A4 pages only, and the image
    and fallback strategies add none. *)
Lemma strategies_keep_A4 (s : Strategy) (w : World) (f : SelectedFile)
      (doc0 : Document) (page : PageRef) (m0 : Machine)
      (doc1 : Document) (m1 : Machine) :
  runStrategy s w f doc0 page m0 = (inr doc1, m1) ->
  (Forall isA4 (pages doc0) -> Forall isA4 (pages doc1)) /\
  (s <> TextLayout -> length (pages doc1) = length (pages doc0)).
Proof.
  destruct s; cbn [runStrategy].
  - unfold textStrategy, call, bind, emit, lift, ret.
    destruct (readAsStringAsync w (uri f)); cbn; [discriminate|].
    destruct (layoutLines _ _) as [e|c] eqn:Hloop; [discriminate|].
    intros H. injection H as <- _. split; [|congruence].
    exact (layoutLines_A4 _ _ _ Hloop).
  - unfold imageStrategy, embedPng, embedJpg, call, bind, emit, lift, ret.
    destruct (readAsBase64Async w (uri f)) as [|data]; cbn; [discriminate|].
    destruct (atob w data) as [|binary]; cbn; [discriminate|].
    destruct (mimeIs (mimeType f) "image/png"); cbn.
    + destruct (decodePng w _) as [|[wd ht]]; cbn; [discriminate|].
      intros H. injection H as <- _. cbn.
      split; [apply appendOp_A4|intros _; apply appendOp_length].
    + destruct (decodeJpg w _) as [|[wd ht]]; cbn; [discriminate|].
      intros H. injection H as <- _. cbn.
      split; [apply appendOp_A4|intros _; apply appendOp_length].
  - unfold fallbackStrategy, call, bind, emit, lift.
    destruct (getInfoAsync w (uri f)) as [|info]; cbn; [discriminate|].
    intros H. injection H as <- _. cbn. split.
    + intros Hall. now apply appendOp_A4, appendOp_A4.
    + intros _. now rewrite !appendOp_length.
Qed.

Lemma titledDoc_A4 (f : SelectedFile) : Forall isA4 (pages (titledDoc f)).
Proof. constructor; [split; reflexivity|constructor]. Qed.

(** X5: every page of every built document is an A4 page, 595 by 842
    points, the pages a long text adds included. *)
Theorem every_page_is_A4 (w : World) (f : SelectedFile) (m m' : Machine)
        (doc : Document) :
  buildDocument w f m = (inr doc, m') ->
  forall p, In p (pages doc) -> pageWidth p = 595%Z /\ pageHeight p = 842%Z.
Proof.
  intros Hbuild. apply Forall_forall.
  rewrite buildDocument_dispatch in Hbuild.
  destruct (mimeStartsWith (mimeType f) "text/");
    [|destruct (mimeStartsWith (mimeType f) "image/")].
  - apply (strategies_keep_A4 TextLayout _ _ _ _ _ _ _ Hbuild), titledDoc_A4.
  - apply (strategies_keep_A4 ImageEmbedding _ _ _ _ _ _ _ Hbuild), titledDoc_A4.
  - apply (strategies_keep_A4 MetadataFallback _ _ _ _ _ _ _ Hbuild), titledDoc_A4.
Qed.

(** The theorem at a text of 52 lines, which has two pages. *)
Lemma every_page_is_A4_witness :
  exists doc m',
    buildDocument (textWorld (shortLines 52)) notesFile (idle notesFile)
      = (inr doc, m') /\
    length (pages doc) = 2%nat /\
    forall p, In p (pages doc) -> pageWidth p = 595%Z /\ pageHeight p = 842%Z.
Proof.
  eexists. eexists.
  assert (Hbuild : buildDocument (textWorld (shortLines 52)) notesFile
                                 (idle notesFile)
                   = (inr ?[doc], ?[m'])) by (vm_compute; reflexivity).
  split; [exact Hbuild|]. split; [reflexivity|].
  exact (every_page_is_A4 (textWorld (shortLines 52)) notesFile
           (idle notesFile) _ _ Hbuild).
Defined.

(** X6: only a text file can take more than one page: the document built
    for a file whose declared type does not start with text/ has exactly
    one page. *)
Theorem only_text_paginates (w : World) (f : SelectedFile) (m m' : Machine)
        (doc : Document) :
  mimeStartsWith (mimeType f) "text/" = false ->
  buildDocument w f m = (inr doc, m') ->
  length (pages doc) = 1%nat.
Proof.
  intros Htext Hbuild. rewrite buildDocument_dispatch, Htext in Hbuild.
  change 1%nat with (length (pages (titledDoc f))).
  destruct (mimeStartsWith (mimeType f) "image/").
  - apply (strategies_keep_A4 ImageEmbedding _ _ _ _ _ _ _ Hbuild). discriminate.
  - apply (strategies_keep_A4 MetadataFallback _ _ _ _ _ _ _ Hbuild). discriminate.
Qed.

(** The theorem at a JPEG that decodes. *)
Lemma only_text_paginates_witness :
  exists doc m',
    buildDocument rasterWorld jpegFile (idle jpegFile) = (inr doc, m') /\
    length (pages doc) = 1%nat.
Proof.
  eexists. eexists.
  assert (Hbuild : buildDocument rasterWorld jpegFile (idle jpegFile)
                   = (inr ?[doc], ?[m'])) by (vm_compute; reflexivity).
  split; [exact Hbuild|].
  exact (only_text_paginates rasterWorld jpegFile (idle jpegFile) _ _
           eq_refl Hbuild).
Defined.

(* ------------------------------------------------------------------ *)
(** ** Images only in image documents *)

Lemma onGrid_no_image (l : list DrawOperation) :
  Forall onGrid l -> filter isImage l = [].
Proof.
  induction 1 as [|op l Hop Hl IH]; [reflexivity|].
  destruct Hop as (line & k & _ & ->). cbn. exact IH.
Qed.

Lemma pages_no_image (ps : list PageCanvas) :
  Forall (fun p => Forall onGrid (ops p)) ps ->
  flat_map (fun p => filter isImage (ops p)) ps = [].
Proof.
  induction 1 as [|p ps Hp Hps IH]; [reflexivity|].
  cbn. now rewrite (onGrid_no_image _ Hp), IH.
Qed.

(** X7: a document holds an image only when the declared type starts with
    image/: the documents built for text files and for all other files
    embed no image and draw none. *)
Theorem no_image_outside_image_types (w : World) (f : SelectedFile)
        (m m' : Machine) (doc : Document) :
  mimeStartsWith (mimeType f) "image/" = false ->
  buildDocument w f m = (inr doc, m') ->
  images doc = [] /\ imageOps doc = [].
Proof.
  intros Himage Hbuild.
  destruct (mimeStartsWith (mimeType f) "text/") eqn:Htext.
  - destruct (buildDocument_text_inv w f m m' doc Htext Hbuild)
      as (txt & c' & Hread & _ & _).
    destruct (textStrategy_pages w f m txt Hread)
      as (doc' & extra & more & Hrun & Hpages & Himgs & Hextra & Hmore & _).
    rewrite buildDocument_dispatch, Htext, Hrun in Hbuild.
    injection Hbuild as <- _. split; [exact Himgs|].
    unfold imageOps. rewrite Hpages. cbn.
    now rewrite (onGrid_no_image _ Hextra), (pages_no_image _ Hmore).
  - rewrite buildDocument_dispatch, Htext, Himage in Hbuild.
    unfold fallbackStrategy, call, bind, emit, lift in Hbuild.
    destruct (getInfoAsync w (uri f)) as [|info]; cbn in Hbuild; [discriminate|].
    injection Hbuild as <- _. split; reflexivity.
Qed.

(** The theorem at an archive. *)
Lemma no_image_outside_image_types_witness :
  exists doc m',
    buildDocument (textWorld "") zipFile (idle zipFile) = (inr doc, m') /\
    images doc = [] /\ imageOps doc = [].
Proof.
  eexists. eexists.
  assert (Hbuild : buildDocument (textWorld "") zipFile (idle zipFile)
                   = (inr ?[doc], ?[m'])) by (vm_compute; reflexivity).
  split; [exact Hbuild|].
  exact (no_image_outside_image_types (textWorld "") zipFile (idle zipFile)
           _ _ eq_refl Hbuild).
Defined.

(* ------------------------------------------------------------------ *)
(** ** The calls of each strategy *)

(** The calls a construction makes, by the declared type. *)
Lemma buildDocument_calls (w : World) (f : SelectedFile) (m : Machine) :
  exists calls,
    snd (buildDocument w f m) = record m calls /\
    ((mimeStartsWith (mimeType f) "text/" = true /\
      calls = [ReadText (uri f)])
     \/ (mimeStartsWith (mimeType f) "text/" = false /\
         mimeStartsWith (mimeType f) "image/" = false /\
         calls = [GetInfo (uri f)])
     \/ (mimeStartsWith (mimeType f) "text/" = false /\
         mimeStartsWith (mimeType f) "image/" = true /\
         (calls = [ReadBase64 (uri f)]
          \/ (exists data, calls = [ReadBase64 (uri f); DecodeBase64 data])
          \/ (exists data bytes,
                 calls = [ReadBase64 (uri f); DecodeBase64 data;
                          embedEvent f bytes])))).
Proof.
  rewrite buildDocument_dispatch.
  destruct (mimeStartsWith (mimeType f) "text/") eqn:Htext;
    [|destruct (mimeStartsWith (mimeType f) "image/") eqn:Himage].
  - exists [ReadText (uri f)]. split; [|now left].
    destruct (readAsStringAsync w (uri f)) as [msg|txt] eqn:Hread.
    + now rewrite (textStrategy_unreadable w f m msg _ _ Hread).
    + destruct (textStrategy_pages w f m txt Hread) as (doc & ? & ? & Hrun & _).
      now rewrite Hrun.
  - unfold imageStrategy, embedPng, embedJpg, embedEvent, call, bind, emit,
      lift, ret.
    destruct (readAsBase64Async w (uri f)) as [msg|data]; cbn.
    { exists [ReadBase64 (uri f)]. split; [reflexivity|]. right. right. auto. }
    destruct (atob w data) as [msg|binary]; cbn.
    { exists [ReadBase64 (uri f); DecodeBase64 data].
      split; [unfold record; cbn; now rewrite <- !app_assoc|].
      right. right. split; [reflexivity|]. split; [reflexivity|].
      right. left. now exists data. }
    exists [ReadBase64 (uri f); DecodeBase64 data;
            embedEvent f (list_byte_of_string binary)].
    unfold embedEvent. split.
    + destruct (mimeIs (mimeType f) "image/png"); cbn.
      * destruct (decodePng w _) as [|[wd ht]]; cbn;
          unfold record; cbn; now rewrite <- !app_assoc.
      * destruct (decodeJpg w _) as [|[wd ht]]; cbn;
          unfold record; cbn; now rewrite <- !app_assoc.
    + right. right. split; [reflexivity|]. split; [reflexivity|].
      right. right. now exists data, (list_byte_of_string binary).
  - exists [GetInfo (uri f)]. split; [|right; left; auto].
    unfold fallbackStrategy, call, bind, emit, lift.
    destruct (getInfoAsync w (uri f)) as [msg|info]; reflexivity.
Qed.

(** X8: the payload is touched by the strategy of its type alone and once
    at most: a text file is read once as text and nothing else is called;
    an image file is read once as base 64, followed by decoding steps only;
    any other file is only probed for its size and never read. *)
Theorem payload_is_read_by_its_strategy (w : World) (f : SelectedFile)
        (m : Machine) :
  (mimeStartsWith (mimeType f) "text/" = true ->
   snd (buildDocument w f m) = record m [ReadText (uri f)])
  /\ (mimeStartsWith (mimeType f) "text/" = false ->
      mimeStartsWith (mimeType f) "image/" = false ->
      snd (buildDocument w f m) = record m [GetInfo (uri f)])
  /\ (mimeStartsWith (mimeType f) "image/" = true ->
      exists steps,
        snd (buildDocument w f m) = record m (ReadBase64 (uri f) :: steps) /\
        Forall (fun e => isDecoding e = true) steps).
Proof.
  destruct (buildDocument_calls w f m) as (calls & Hrun & Hcases).
  rewrite Hrun. split; [|split].
  - intros Htext.
    destruct Hcases as [[_ ->]|[(H & _)|(H & _)]]; [reflexivity| |]; congruence.
  - intros Htext Himage.
    destruct Hcases as [[H _]|[(_ & _ & ->)|(_ & H & _)]];
      [congruence|reflexivity|congruence].
  - intros Himage.
    destruct Hcases as [[H _]|[(_ & H & _)|(_ & _ & Hcalls)]].
    + rewrite (image_type_is_not_text _ Himage) in H. discriminate.
    + congruence.
    + destruct Hcalls as [->|[(data & ->)|(data & bytes & ->)]].
      * exists []. split; [reflexivity|constructor].
      * exists [DecodeBase64 data]. split; [reflexivity|repeat constructor].
      * exists [DecodeBase64 data; embedEvent f bytes].
        split; [reflexivity|]. repeat constructor.
        unfold embedEvent. now destruct (mimeIs (mimeType f) "image/png").
Qed.

Lemma mimeIs_eq (mime : option string) (s : string) :
  mimeIs mime s = true <-> mime = Some s.
Proof.
  destruct mime as [t|]; cbn; [|split; discriminate].
  rewrite String.eqb_eq. split; congruence.
Qed.

(** X9: the decoder is chosen by the declared type alone: the PNG decoder
    is called only for a file declared exactly image/png, the JPEG decoder
    only for a file of another image type, and a construction calls a
    decoder once at most, so bytes one decoder rejects are never offered to
    the other. *)
Theorem decoder_follows_declared_type (w : World) (f : SelectedFile)
        (m : Machine) :
  exists calls,
    snd (buildDocument w f m) = record m calls /\
    (length (filter isEmbed calls) <= 1)%nat /\
    (forall bytes, In (EmbedPng bytes) calls ->
                   mimeType f = Some "image/png") /\
    (forall bytes, In (EmbedJpg bytes) calls ->
                   mimeStartsWith (mimeType f) "image/" = true /\
                   mimeType f <> Some "image/png").
Proof.
  destruct (buildDocument_calls w f m) as (calls & Hrun & Hcases).
  exists calls. split; [exact Hrun|].
  destruct Hcases as [[_ ->]|[(_ & _ & ->)|(_ & Himage & Hcalls)]].
  - cbn. split; [lia|]. split; intros bytes [H|[]]; discriminate H.
  - cbn. split; [lia|]. split; intros bytes [H|[]]; discriminate H.
  - destruct Hcalls as [->|[(data & ->)|(data & bytes' & ->)]].
    + cbn. split; [lia|]. split; intros bytes [H|[]]; discriminate H.
    + cbn. split; [lia|].
      split; intros bytes [H|[H|[]]]; discriminate H.
    + unfold embedEvent.
      destruct (mimeIs (mimeType f) "image/png") eqn:Hpng.
      * cbn. split; [lia|]. split.
        -- intros _ _. now apply mimeIs_eq.
        -- intros bytes [H|[H|[H|[]]]]; discriminate H.
      * cbn. split; [lia|]. split.
        -- intros bytes [H|[H|[H|[]]]]; discriminate H.
        -- intros _ _. split; [exact Himage|].
           intros Heq. apply mimeIs_eq in Heq. congruence.
Qed.

(* ------------------------------------------------------------------ *)
(** ** Picking a file *)

Lemma orElse_nonempty (s d : string) : d <> "" -> orElse s d <> "".
Proof. destruct s; cbn; [auto|discriminate]. Qed.

Lemma orNull_not_empty (s : option string) : orNull s <> Some "".
Proof. destruct s as [[|c t]|]; cbn; discriminate. Qed.

Lemma selectionOf_well_formed (file : Asset) :
  name (selectionOf file) <> "" /\ mimeType (selectionOf file) <> Some "".
Proof.
  split; [apply orElse_nonempty; discriminate|apply orNull_not_empty].
Qed.

(** X10: when the picker answers, uncanceled, with at least one asset,
    [pickDocument] selects the first asset and ignores the others, clears
    [downloadUrl], and leaves the busy flag and the disk alone.  The
    selection always has a name and never an empty type: an empty name
    becomes file, an empty type becomes absent, and a name or type that is
    not empty is taken as it is. *)
Theorem pick_selects_the_first_asset (sh : Shell) (m : Machine)
        (result : PickerResult) (file : Asset) (others : list Asset) :
  getDocumentAsync sh pickerTypes = Returns result ->
  canceled result = false ->
  assets result = Some (file :: others) ->
  selectedFile (react (fst (pickDocument sh m))) = Some (selectionOf file)
  /\ downloadUrl (react (fst (pickDocument sh m))) = None
  /\ isConverting (react (fst (pickDocument sh m))) = isConverting (react m)
  /\ disk (fst (pickDocument sh m)) = disk m
  /\ uri (selectionOf file) = assetUri file
  /\ name (selectionOf file) <> ""
  /\ mimeType (selectionOf file) <> Some ""
  /\ (assetName file = "" -> name (selectionOf file) = "file")
  /\ (assetName file <> "" -> name (selectionOf file) = assetName file)
  /\ (assetMimeType file = Some "" -> mimeType (selectionOf file) = None)
  /\ (assetMimeType file <> Some "" ->
      mimeType (selectionOf file) = assetMimeType file).
Proof.
  intros Hanswer Hgo Hassets.
  unfold pickDocument, pickedAsset. rewrite Hanswer, Hgo, Hassets. cbn.
  repeat split; try reflexivity.
  - apply (selectionOf_well_formed file).
  - apply (selectionOf_well_formed file).
  - intros ->. reflexivity.
  - intros Hname. destruct (assetName file); [congruence|reflexivity].
  - intros ->. reflexivity.
  - intros Htype. destruct (assetMimeType file) as [[|c t]|];
      [congruence|reflexivity|reflexivity].
Qed.

(** The theorem at an answer of two assets, the first without name or
    type. *)
Lemma pick_selects_the_first_asset_witness :
  selectedFile
    (react (fst (pickDocument
                   (pickerShell (mkPickerResult false
                                   (Some [unnamedAsset; photoAsset])))
                   (converted notesFile "file:///documents/notes.pdf"))))
  = Some (mkFile "content://picked/1" "file" None)
  /\ downloadUrl
       (react (fst (pickDocument
                      (pickerShell (mkPickerResult false
                                      (Some [unnamedAsset; photoAsset])))
                      (converted notesFile "file:///documents/notes.pdf"))))
     = None.
Proof.
  destruct (pick_selects_the_first_asset
              (pickerShell (mkPickerResult false
                              (Some [unnamedAsset; photoAsset])))
              (converted notesFile "file:///documents/notes.pdf")
              (mkPickerResult false (Some [unnamedAsset; photoAsset]))
              unnamedAsset [photoAsset] eq_refl eq_refl eq_refl)
    as (Hsel & Hurl & _).
  split; [exact Hsel|exact Hurl].
Defined.

(** X11: a pick that yields no file changes nothing: when the picker
    throws, the machine is as it was and the one alert Failed to pick
    document is shown; when the answer is canceled (whatever assets it
    carries), or carries no asset list or an empty one, the machine is as
    it was and nothing is shown.  The previous selection and the previous
    PDF stay. *)
Theorem pick_without_a_file_changes_nothing (sh : Shell) (m : Machine) :
  (forall msg,
      getDocumentAsync sh pickerTypes = Throws msg ->
      pickDocument sh m =
        (m, [PickerAsked pickerTypes;
             ShellAlert "Error" "Failed to pick document"]))
  /\ (forall result,
         getDocumentAsync sh pickerTypes = Returns result ->
         canceled result = true \/ assets result = None
         \/ assets result = Some [] ->
         pickDocument sh m = (m, [PickerAsked pickerTypes])).
Proof.
  split.
  - intros msg H. unfold pickDocument. now rewrite H.
  - intros result H Hnone. unfold pickDocument, pickedAsset. rewrite H.
    destruct Hnone as [->|[->| ->]]; [reflexivity| |];
      destruct (canceled result); reflexivity.
Qed.

(* ------------------------------------------------------------------ *)
(** ** Opening the PDF *)

Lemma append_not_empty_r (a b : string) : b <> "" -> a +++ b <> "".
Proof. destruct a; cbn; [auto|discriminate]. Qed.

Lemma pdfUriOf_not_empty (w : World) (f : SelectedFile) : pdfUriOf w f <> "".
Proof.
  unfold pdfUriOf. apply append_not_empty_r, append_not_empty_r. discriminate.
Qed.

Lemma orNull_some (u : string) : u <> "" -> orNull (Some u) = Some u.
Proof. destruct u; [congruence|reflexivity]. Qed.

Lemma orNull_inv (s : option string) (u : string) :
  orNull s = Some u -> s = Some u /\ u <> "".
Proof.
  destruct s as [[|c t]|]; cbn; try discriminate.
  intros H. injection H as <-. split; [reflexivity|discriminate].
Qed.

(** X12: [openPDF] hands a URL to the viewer only when [downloadUrl] is
    set and not empty, the probe of that path answered that the file
    exists, and the content URI of that path was obtained; what it hands
    over is that content URI.  When the probe answers that the file does
    not exist, the alert PDF file not found is all that follows the probe.
    The machine is left as it was. *)
Theorem viewer_gets_only_an_existing_pdf (w : World) (sh : Shell)
        (m : Machine) :
  fst (openPDF w sh m) = m
  /\ (forall contentUri,
         In (UrlOpened contentUri) (snd (openPDF w sh m)) ->
         exists url fileInfo,
           downloadUrl (react m) = Some url /\ url <> "" /\
           getInfoAsync w url = Returns fileInfo /\
           fileExists fileInfo = true /\
           getContentUriAsync sh url = Returns contentUri)
  /\ (forall url fileInfo,
         downloadUrl (react m) = Some url -> url <> "" ->
         getInfoAsync w url = Returns fileInfo ->
         fileExists fileInfo = false ->
         snd (openPDF w sh m) =
           [InfoAsked url; ShellAlert "Error" "PDF file not found"])
  /\ (orNull (downloadUrl (react m)) = None -> snd (openPDF w sh m) = []).
Proof.
  unfold openPDF. split; [|split; [|split]].
  - destruct (orNull (downloadUrl (react m))); reflexivity.
  - intros contentUri.
    destruct (orNull (downloadUrl (react m))) as [url|] eqn:Hurl;
      cbn [snd]; [|intros []].
    apply orNull_inv in Hurl. destruct Hurl as [Hurl Hne].
    intros [H|Hin]; [discriminate H|].
    destruct (getInfoAsync w url) as [msg|fileInfo] eqn:Hinfo.
    { destruct Hin as [H|[]]. discriminate H. }
    destruct (fileExists fileInfo) eqn:Hex; cbn [negb] in Hin.
    2: { destruct Hin as [H|[]]. discriminate H. }
    destruct Hin as [H|Hin]; [discriminate H|].
    destruct (getContentUriAsync sh url) as [msg|c] eqn:Hcontent.
    { destruct Hin as [H|[]]. discriminate H. }
    destruct Hin as [H|Hin].
    + injection H as <-. now exists url, fileInfo.
    + destruct (openURL sh c); [destruct Hin as [H|[]]; discriminate H|].
      destruct Hin.
  - intros url fileInfo Hurl Hne Hinfo Hex.
    rewrite Hurl, (orNull_some url Hne). cbn [snd].
    now rewrite Hinfo, Hex.
  - intros ->. reflexivity.
Qed.

(** X13: a press on Open PDF after a conversion that made the button
    appear probes the PDF of the selected file, at the path the conversion
    wrote to; and after a pick that selected a file, [openPDF] does nothing
    at all, so the PDF of the file selected before cannot be opened for
    the new one. *)
Theorem open_follows_the_last_conversion (w : World) (sh : Shell)
        (m : Machine) :
  (forall f,
      selectedFile (react m) = Some f ->
      openPdfShown (render (react m)) = false ->
      openPdfShown (render (react (snd (convertToPDF w m)))) = true ->
      (exists rest,
          snd (openPDF w sh (snd (convertToPDF w m))) =
            InfoAsked (pdfUriOf w f) :: rest) /\
      exists data, In (pdfUriOf w f, data) (disk (snd (convertToPDF w m))))
  /\ (forall picker file,
         selectedFile (react (fst (pickDocument picker m))) = Some file ->
         selectedFile (react (fst (pickDocument picker m)))
           <> selectedFile (react m) ->
         openPDF w sh (fst (pickDocument picker m)) =
           (fst (pickDocument picker m), [])).
Proof.
  split.
  - intros f Hsel Hhidden Hshown.
    destruct (convertToPDF_run w m f Hsel) as (r & calls & _ & Hr).
    destruct r as [e|[]].
    + destruct Hr as [Hrun _]. rewrite Hrun in Hshown.
      cbn [snd settled react render openPdfShown downloadUrl] in Hshown.
      unfold render in Hhidden. cbn [openPdfShown] in Hhidden. congruence.
    + destruct Hr as (doc & pdfBytes & data & built & Hrun & _).
      rewrite Hrun. cbn [snd]. split.
      * unfold openPDF, settled. cbn [react downloadUrl].
        rewrite (orNull_some _ (pdfUriOf_not_empty w f)). cbn [snd].
        eexists. reflexivity.
      * exists data. unfold settled. cbn [disk]. now left.
  - intros picker file Hsel Hnew. revert Hsel Hnew.
    unfold pickDocument.
    destruct (getDocumentAsync picker pickerTypes) as [msg|result];
      cbn [fst]; [congruence|].
    destruct (pickedAsset result) as [asset|]; cbn [fst]; [|congruence].
    intros _ _. reflexivity.
Qed.

(* ------------------------------------------------------------------ *)
(** ** Sessions *)

Lemma calls_are_not_the_no_file_alert (calls : list Event) :
  Forall (fun e => isCall e = true) calls ->
  Forall (fun e => e <> Alert "Error" "Please select a file first") calls.
Proof.
  intros H. eapply Forall_impl; [|exact H].
  intros e He ->. discriminate He.
Qed.

Lemma atRest_initial (w : World) : atRest w initialMachine.
Proof.
  split; [reflexivity|]. split; [discriminate|]. split; [discriminate|].
  constructor.
Qed.

Lemma pickDocument_atRest (w : World) (sh : Shell) (m : Machine) :
  atRest w m -> atRest w (fst (pickDocument sh m)).
Proof.
  intros Hrest. unfold pickDocument.
  destruct (getDocumentAsync sh pickerTypes) as [msg|result]; [exact Hrest|].
  destruct (pickedAsset result) as [file|]; [|exact Hrest].
  destruct Hrest as (Hbusy & _ & _ & Htrace). cbn [fst].
  split; [exact Hbusy|]. split; [|split; [discriminate|exact Htrace]].
  intros f Hf. cbn in Hf. injection Hf as <-.
  apply selectionOf_well_formed.
Qed.

Lemma convertToPDF_atRest (w : World) (m : Machine) (f : SelectedFile) :
  selectedFile (react m) = Some f ->
  atRest w m -> atRest w (snd (convertToPDF w m)).
Proof.
  intros Hsel (Hbusy & Hfile & Hurl & Htrace).
  destruct (convertToPDF_run w m f Hsel) as (r & calls & Hstop & Hr).
  destruct Hstop as (Hcalls & _ & _).
  apply calls_are_not_the_no_file_alert in Hcalls.
  destruct r as [e|[]].
  - destruct Hr as [Hrun _]. rewrite Hrun. cbn [snd]. unfold settled.
    split; [reflexivity|]. cbn [react disk trace selectedFile downloadUrl].
    split; [|split].
    + intros f' Hf'. apply Hfile. congruence.
    + intros u Hu. destruct (Hurl u Hu) as (f' & data & Hf' & -> & Hin).
      exists f', data. split; [congruence|]. split; [reflexivity|exact Hin].
    + apply Forall_app. split; [exact Htrace|].
      constructor; [discriminate|].
      apply Forall_app. split; [exact Hcalls|].
      repeat constructor; discriminate.
  - destruct Hr as (doc & pdfBytes & data & built & Hrun & _).
    rewrite Hrun. cbn [snd]. unfold settled.
    split; [reflexivity|]. cbn [react disk trace selectedFile downloadUrl].
    split; [|split].
    + intros f' Hf'. apply Hfile. congruence.
    + intros u Hu. injection Hu as <-. exists f, data.
      split; [reflexivity|]. split; [reflexivity|now left].
    + apply Forall_app. split; [exact Htrace|].
      constructor; [discriminate|].
      apply Forall_app. split; [exact Hcalls|].
      repeat constructor; discriminate.
Qed.

Lemma press_atRest (w : World) (sh : Shell) (b : Button) (m : Machine) :
  atRest w m -> atRest w (press w sh b m).
Proof.
  intros Hrest. destruct b; cbn [press].
  - destruct (selectFileDisabled (render (react m))); [exact Hrest|].
    now apply pickDocument_atRest.
  - unfold render. cbn [convertDisabled].
    destruct (selectedFile (react m)) as [f|] eqn:Hsel; [|exact Hrest].
    destruct (isConverting (react m)); [exact Hrest|].
    now apply (convertToPDF_atRest w m f).
  - destruct (openPdfShown (render (react m))); [|exact Hrest].
    unfold openPDF. now destruct (orNull (downloadUrl (react m))).
Qed.

(** What holds between presses holds after every session. *)
Lemma session_atRest (w : World) (presses : list (Shell * Button)) :
  forall m, atRest w m -> atRest w (session w presses m).
Proof.
  induction presses as [|[sh b] rest IH]; intros m Hrest; [exact Hrest|].
  cbn [session]. apply IH. now apply press_atRest.
Qed.

(** X14: whatever buttons are pressed and whatever the picker, the viewer
    and the conversions answer, a [downloadUrl] that is set is the PDF
    path of the file selected now, and a file written by a conversion lies
    under it; the Open PDF button shows exactly when [downloadUrl] is
    set.  So the button never offers the PDF of a file selected earlier. *)
Theorem open_button_offers_the_current_pdf (w : World)
        (presses : list (Shell * Button)) :
  (forall u,
      downloadUrl (react (session w presses initialMachine)) = Some u ->
      exists f data,
        selectedFile (react (session w presses initialMachine)) = Some f /\
        u = pdfUriOf w f /\
        In (u, data) (disk (session w presses initialMachine)))
  /\ (openPdfShown (render (react (session w presses initialMachine))) = true
      <-> downloadUrl (react (session w presses initialMachine)) <> None).
Proof.
  destruct (session_atRest w presses initialMachine (atRest_initial w))
    as (_ & _ & Hurl & _).
  split; [exact Hurl|].
  unfold render. cbn [openPdfShown].
  destruct (downloadUrl (react (session w presses initialMachine)))
    as [u|] eqn:Hu.
  - destruct (Hurl u eq_refl) as (f & data & _ & -> & _).
    rewrite (orNull_some _ (pdfUriOf_not_empty w f)).
    split; [discriminate|reflexivity].
  - cbn [orNull]. split; [discriminate|congruence].
Qed.

(** X15: whatever buttons are pressed, between presses the busy flag is
    down, the alert Please select a file first has never been raised (the
    Convert button is disabled while no file is selected, so that branch
    of [convertToPDF] is never run), and a selected file has a name that
    is not empty and a declared type that is absent or not empty. *)
Theorem sessions_come_to_rest (w : World) (presses : list (Shell * Button)) :
  isConverting (react (session w presses initialMachine)) = false
  /\ ~ In (Alert "Error" "Please select a file first")
          (trace (session w presses initialMachine))
  /\ (forall f,
         selectedFile (react (session w presses initialMachine)) = Some f ->
         name f <> "" /\ mimeType f <> Some "")
  /\ convertDisabled (render (react (session w presses initialMachine)))
     = match selectedFile (react (session w presses initialMachine)) with
       | Some _ => false
       | None => true
       end.
Proof.
  destruct (session_atRest w presses initialMachine (atRest_initial w))
    as (Hbusy & Hfile & _ & Htrace).
  split; [exact Hbusy|]. split; [|split; [exact Hfile|]].
  - rewrite Forall_forall in Htrace. intros Hin. now apply (Htrace _ Hin).
  - unfold render. cbn [convertDisabled]. rewrite Hbusy. reflexivity.
Qed.

(* ------------------------------------------------------------------ *)
(** ** Files that share a destination *)





(* ------------------------------------------------------------------ *)
(** ** What the user is told *)




Lemma call_is_not_an_alert (c : Event) (title text : string) :
  isCall c = true -> c <> Alert title text.
Proof. intros H ->. discriminate H. Qed.



(* ------------------------------------------------------------------ *)
(** ** What is written *)

Lemma btoa_returns (w : World) (s d : string) :
  btoa w s = Returns d ->
  globalBtoa w s = Returns d \/
  exists msg, globalBtoa w s = Throws msg /\ bufferBase64 w s = Returns d.
Proof.
  unfold btoa. destruct (globalBtoa w s) as [msg|d'].
  - intros H. right. now exists msg.
  - intros H. now left.
Qed.

Lemma write_not_in_build (built : list Event) (p d : string) :
  Forall (fun c => isBuildCall c = true) built -> ~ In (WriteFile p d) built.
Proof. intros H. now apply not_build_call_fresh. Qed.

(** The write of an attempt, when there is one: it follows the
    serialization of the built document and the encoding of its bytes. *)
Lemma conversionAttempt_writes (w : World) (f : SelectedFile) (m : Machine) :
  exists evs,
    trace (snd (conversionAttempt w f m)) = trace m ++ evs /\
    forall p d,
      In (WriteFile p d) evs ->
      p = pdfUriOf w f /\
      exists doc pdfBytes,
        fst (buildDocument w f m) = inr doc /\
        serialize w doc = Returns pdfBytes /\
        btoa w (string_of_list_byte pdfBytes) = Returns d.
Proof.
  destruct (buildDocument_run w f m) as (r & built & Hrun & _ & Hbuilt & _).
  unfold conversionAttempt, bind. rewrite Hrun.
  destruct r as [e|doc].
  { exists built. split; [reflexivity|]. intros p d Hin.
    now destruct (write_not_in_build built p d Hbuilt). }
  unfold call, writeFile, setDownloadUrl, alert, emit, lift, bind.
  cbn [record react disk trace].
  destruct (serialize w doc) as [msg|pdfBytes] eqn:Hser; cbn [throw ok].
  { exists (built ++ [Save doc]). split; [cbn; now rewrite <- ?app_assoc|].
    intros p d Hin. apply in_app_iff in Hin.
    destruct Hin as [Hin|[H|[]]]; [|discriminate H].
    now destruct (write_not_in_build built p d Hbuilt). }
  destruct (btoa w (string_of_list_byte pdfBytes)) as [msg|data] eqn:Henc;
    cbn [throw ok].
  { exists (built ++ [Save doc; EncodeBase64 (string_of_list_byte pdfBytes)]).
    split; [cbn; now rewrite <- ?app_assoc|].
    intros p d Hin. apply in_app_iff in Hin.
    destruct Hin as [Hin|[H|[H|[]]]]; try discriminate H.
    now destruct (write_not_in_build built p d Hbuilt). }
  assert (Hwritten : forall tail p d,
             Forall (fun c => isCall c = false) tail ->
             In (WriteFile p d)
                (built ++ [Save doc;
                           EncodeBase64 (string_of_list_byte pdfBytes);
                           WriteFile (pdfUriOf w f) data] ++ tail) ->
             p = pdfUriOf w f /\
             exists doc' pdfBytes',
               fst (inr doc : Result Document, record m built) = inr doc' /\
               serialize w doc' = Returns pdfBytes' /\
               btoa w (string_of_list_byte pdfBytes') = Returns d).
  { intros tail p d Htail Hin. apply in_app_iff in Hin.
    destruct Hin as [Hin|Hin];
      [now destruct (write_not_in_build built p d Hbuilt)|].
    cbn [app] in Hin. destruct Hin as [H|[H|[H|Hin]]]; try discriminate H.
    - injection H as <- <-. split; [reflexivity|]. now exists doc, pdfBytes.
    - rewrite Forall_forall in Htail. specialize (Htail _ Hin).
      discriminate Htail. }
  destruct (writeAsStringAsync w (pdfUriOf w f) data) as [msg|[]];
    cbn [throw ok snd trace].
  - exists (built ++ [Save doc; EncodeBase64 (string_of_list_byte pdfBytes);
                      WriteFile (pdfUriOf w f) data] ++ []).
    split; [cbn; now rewrite <- ?app_assoc|].
    intros p d. apply Hwritten. constructor.
  - exists (built ++ [Save doc; EncodeBase64 (string_of_list_byte pdfBytes);
                      WriteFile (pdfUriOf w f) data]
                  ++ [SetDownloadUrl (pdfUriOf w f); successAlert]).
    split; [cbn; now rewrite <- ?app_assoc|].
    intros p d. apply Hwritten. repeat constructor.
Qed.

(** The attempt once the document is built, serialized and encoded: it
    ends with the write. *)
Lemma conversionAttempt_after_encoding (w : World) (f : SelectedFile)
      (m : Machine) (doc : Document) (pdfBytes : list Byte.byte) (d : string) :
  fst (buildDocument w f m) = inr doc ->
  serialize w doc = Returns pdfBytes ->
  btoa w (string_of_list_byte pdfBytes) = Returns d ->
  exists built,
    conversionAttempt w f m =
      match writeAsStringAsync w (pdfUriOf w f) d with
      | Throws msg =>
          (inl (mkExn PersistenceFailure msg),
           record m (built ++ persistCalls w f doc pdfBytes d))
      | Returns _ =>
          (inr tt,
           persisted w f m d
             (built ++ persistCalls w f doc pdfBytes d ++
              [SetDownloadUrl (pdfUriOf w f); successAlert]))
      end.
Proof.
  intros Hdoc Hser Henc.
  destruct (buildDocument_run w f m) as (r & built & Hrun & _).
  rewrite Hrun in Hdoc. cbn [fst] in Hdoc. subst r.
  exists built. unfold conversionAttempt, bind. rewrite Hrun.
  unfold call, writeFile, setDownloadUrl, alert, emit, lift, bind.
  cbn [record react disk trace]. rewrite Hser. cbn [throw ok].
  rewrite Henc. cbn [throw ok].
  destruct (writeAsStringAsync w (pdfUriOf w f) d) as [msg|[]]; cbn [throw ok].
  - unfold record, persistCalls. cbn. now rewrite <- !app_assoc.
  - unfold persisted, persistCalls. cbn. now rewrite <- !app_assoc.
Qed.

Lemma conversionAttempt_encoding_fails (w : World) (f : SelectedFile)
      (m : Machine) (doc : Document) (pdfBytes : list Byte.byte)
      (msg : option string) :
  fst (buildDocument w f m) = inr doc ->
  serialize w doc = Returns pdfBytes ->
  btoa w (string_of_list_byte pdfBytes) = Throws msg ->
  exists built,
    Forall (fun c => isBuildCall c = true) built /\
    conversionAttempt w f m =
      (inl (mkExn PersistenceFailure msg),
       record m (built ++ [Save doc;
                           EncodeBase64 (string_of_list_byte pdfBytes)])).
Proof.
  intros Hdoc Hser Henc.
  destruct (buildDocument_run w f m) as (r & built & Hrun & _ & Hbuilt & _).
  rewrite Hrun in Hdoc. cbn [fst] in Hdoc. subst r.
  exists built. split; [exact Hbuilt|].
  unfold conversionAttempt, bind. rewrite Hrun.
  unfold call, writeFile, setDownloadUrl, alert, emit, lift, bind.
  cbn [record react disk trace]. rewrite Hser. cbn [throw ok].
  rewrite Henc. cbn [throw ok].
  unfold record. cbn. now rewrite <- !app_assoc.
Qed.

Lemma btoa_of_answers (w : World) (s d : string) :
  globalBtoa w s = Returns d \/
  (exists msg, globalBtoa w s = Throws msg /\ bufferBase64 w s = Returns d) ->
  btoa w s = Returns d.
Proof.
  unfold btoa. intros [->|(msg & -> & ->)]; reflexivity.
Qed.

(** X18: whatever an attempt writes, it writes under the PDF path of the
    file, and what it writes is an encoder's answer for the binary string
    of the serialized built document.  The encoder is the global one when
    it answers.  When the global encoder throws, its exception is dropped
    and the Buffer encoder is asked: its answer is what is written, and
    when it throws too the attempt fails with its message, not the global
    one's, and nothing is written. *)
Theorem written_data_is_the_encoded_document (w : World) (f : SelectedFile)
        (m : Machine) :
  (forall p d,
      In (WriteFile p d) (trace (snd (conversionAttempt w f m))) ->
      ~ In (WriteFile p d) (trace m) ->
      p = pdfUriOf w f /\
      exists doc pdfBytes,
        fst (buildDocument w f m) = inr doc /\
        serialize w doc = Returns pdfBytes /\
        (globalBtoa w (string_of_list_byte pdfBytes) = Returns d \/
         exists msg,
           globalBtoa w (string_of_list_byte pdfBytes) = Throws msg /\
           bufferBase64 w (string_of_list_byte pdfBytes) = Returns d))
  /\ (forall doc pdfBytes d,
         fst (buildDocument w f m) = inr doc ->
         serialize w doc = Returns pdfBytes ->
         (globalBtoa w (string_of_list_byte pdfBytes) = Returns d \/
          exists msg,
            globalBtoa w (string_of_list_byte pdfBytes) = Throws msg /\
            bufferBase64 w (string_of_list_byte pdfBytes) = Returns d) ->
         In (WriteFile (pdfUriOf w f) d)
            (trace (snd (conversionAttempt w f m))) /\
         (writeAsStringAsync w (pdfUriOf w f) d = Returns tt ->
          fst (conversionAttempt w f m) = inr tt /\
          disk (snd (conversionAttempt w f m)) = (pdfUriOf w f, d) :: disk m))
  /\ (forall doc pdfBytes msg msg',
         fst (buildDocument w f m) = inr doc ->
         serialize w doc = Returns pdfBytes ->
         globalBtoa w (string_of_list_byte pdfBytes) = Throws msg ->
         bufferBase64 w (string_of_list_byte pdfBytes) = Throws msg' ->
         fst (conversionAttempt w f m) = inl (mkExn PersistenceFailure msg') /\
         disk (snd (conversionAttempt w f m)) = disk m /\
         forall p d,
           In (WriteFile p d) (trace (snd (conversionAttempt w f m))) ->
           In (WriteFile p d) (trace m)).
Proof.
  split; [|split].
  - intros p d Hin Hnew.
    destruct (conversionAttempt_writes w f m) as (evs & Htrace & Hwrites).
    rewrite Htrace in Hin. apply in_app_iff in Hin.
    destruct Hin as [Hin|Hin]; [contradiction|].
    destruct (Hwrites p d Hin) as (Hp & doc & pdfBytes & Hdoc & Hser & Henc).
    split; [exact Hp|]. exists doc, pdfBytes.
    split; [exact Hdoc|]. split; [exact Hser|]. now apply btoa_returns.
  - intros doc pdfBytes d Hdoc Hser Hanswer.
    apply btoa_of_answers in Hanswer.
    destruct (conversionAttempt_after_encoding w f m doc pdfBytes d
                Hdoc Hser Hanswer) as (built & Hrun).
    rewrite Hrun. split.
    + destruct (writeAsStringAsync w (pdfUriOf w f) d) as [msg'|u];
        cbn [snd record persisted trace]; unfold persistCalls;
        rewrite !in_app_iff; right; right; cbn; auto.
    + intros Hwrite. rewrite Hwrite. split; reflexivity.
  - intros doc pdfBytes msg msg' Hdoc Hser Hglobal Hbuffer.
    assert (Henc : btoa w (string_of_list_byte pdfBytes) = Throws msg')
      by (unfold btoa; now rewrite Hglobal).
    destruct (conversionAttempt_encoding_fails w f m doc pdfBytes msg'
                Hdoc Hser Henc) as (built & Hbuilt & Hrun).
    rewrite Hrun. split; [reflexivity|]. split; [reflexivity|].
    intros p d. cbn [snd record trace]. rewrite !in_app_iff.
    intros [Hin|[Hin|Hin]]; [exact Hin| |].
    + now destruct (write_not_in_build built p d Hbuilt).
    + destruct Hin as [H|[H|[]]]; discriminate H.
Qed.

(** The theorem in a world whose global encoder throws: the answer of the
    Buffer encoder is written. *)
Lemma written_data_is_the_encoded_document_witness :
  In (WriteFile "file:///documents/notes.pdf" "b64:%PDF")
     (trace (snd (conversionAttempt bufferWorld notesFile (idle notesFile))))
  /\ fst (conversionAttempt bufferWorld notesFile (idle notesFile)) = inr tt
  /\ disk (snd (conversionAttempt bufferWorld notesFile (idle notesFile)))
     = [("file:///documents/notes.pdf", "b64:%PDF")].
Proof.
  destruct (written_data_is_the_encoded_document bufferWorld notesFile
              (idle notesFile)) as (_ & Hfallback & _).
  assert (Hbuild : fst (buildDocument bufferWorld notesFile (idle notesFile))
                   = inr ?[doc]) by (vm_compute; reflexivity).
  destruct (Hfallback _ [Byte.x25; Byte.x50; Byte.x44; Byte.x46] "b64:%PDF"
              Hbuild eq_refl)
    as (Hin & Hdisk).
  - right. exists (Some "btoa is not defined"). split; reflexivity.
  - destruct (Hdisk eq_refl) as (Hok & Hfiles).
    split; [exact Hin|]. split; [exact Hok|exact Hfiles].
Defined.
